(** * Automated Insight Engine: the data pipeline, embedded and verified

    A shallow embedding of the computational core of the insight engine
    ([backend/engine/ingest.py], [backend/engine/metrics.py] and
    [backend/engine/insights.py]) together with the properties its
    specification states about it.

    - [Polars]   : the part of the data-frame library the pipeline relies on.
    - [Config]   : the configuration records.
    - [Ingest]   : delimiter detection, query synthesis, joining of sources.
    - [Metrics]  : derived metrics, period splitting and aggregation.
    - [Insights] : deltas, percentage change, impact score and ranking.

    Each module gives the definitions first, translated from the source, and
    then the properties. *)

From Stdlib Require Import ZArith QArith Qabs Qminmax Qround.
From Stdlib Require Import List String Ascii Bool Lia Lqa Sorted Permutation.
From Stdlib Require Import Floats.
Import ListNotations.
Close Scope Q_scope.

Set Implicit Arguments.

(** ** Exceptions and results

    Every exception the pipeline raises is a Python [ValueError] (or an error of
    a library); the constructors name them by what they report, as the
    specification does. *)

Inductive Exception : Type :=
| FormulaError (formula : string)          (* "Cannot parse formula: ..." *)
| ColumnNotFound (column : string)         (* "Column '...' not found for formula ..." *)
| MissingColumn (columns : list string)    (* "Missing dimension columns: [...]" *)
| NoValidMetrics                           (* "No valid metrics found to aggregate" *)
| DateParseError (text : string)           (* strptime: the text is not a date *)
| ZeroDivisionError                        (* Python: division by zero *)
| KeyError (key : string)                  (* Python: dict lookup of an absent key *)
| DuplicateError (column : string)         (* the library: the same output name twice *)
| InvalidOperationError (column : string)  (* the library: operation not defined on the dtype *)
| NotFound (path : string)                 (* FileNotFoundError: "CSV file not found: ..." *)
| UnknownSourceType (name : string)        (* "Unknown source type: ..." *)
| UnsupportedOperator (operator : ascii)   (* "Unsupported operator: ..." *)
| TypeError                                (* Python: [None] where a string is needed *)
| EngineError (message : string).          (* a database client or engine failed *)

Inductive Result (A : Type) : Type :=
| Ok (a : A)
| Err (e : Exception).

Arguments Ok {A} a.
Arguments Err {A} e.

Definition bind {A B : Type} (r : Result A) (k : A -> Result B) : Result B :=
  match r with
  | Ok a => k a
  | Err e => Err e
  end.

Notation "x <- r ;; k" := (bind r (fun x => k))
  (at level 61, r at next level, right associativity).

(** Python's [try: a except Exception: b]. *)
Definition try_except {A : Type} (a : Result A) (handler : Exception -> Result A) : Result A :=
  match a with
  | Ok v => Ok v
  | Err e => handler e
  end.

(** Python's slice [l[:n]]: the first [n] elements, and for a negative [n] all
    but the last [-n]. *)
Definition slice_to {A : Type} (n : Z) (l : list A) : list A :=
  if (0 <=? n)%Z then firstn (Z.to_nat n) l
  else firstn (Z.to_nat (Z.of_nat (List.length l) + n)) l.

(** Membership of a name in a list of names: Python's [name in names]. *)
Definition mem (name : string) (names : list string) : bool :=
  existsb (String.eqb name) names.

(** [sep.join(parts)]. *)
Fixpoint join (sep : string) (parts : list string) : string :=
  match parts with
  | [] => EmptyString
  | [p] => p
  | p :: rest => (p ++ sep ++ join sep rest)%string
  end.

(** [if name not in names: names.append(name)]. *)
Definition append_new (names : list string) (name : string) : list string :=
  if mem name names then names else names ++ [name].

Definition dquote : string := String "034"%char EmptyString.

(** The f-string ["{name}"] between double quotes. *)
Definition quoted (name : string) : string := (dquote ++ name ++ dquote)%string.

Lemma mem_In : forall (name : string) (names : list string),
    mem name names = true <-> In name names.
Proof.
  intros name names. unfold mem. rewrite existsb_exists. split.
  - intros [x [Hin Heq]]. apply String.eqb_eq in Heq. subst. exact Hin.
  - intro Hin. exists name. split; [ exact Hin | apply String.eqb_refl ].
Qed.

(** * The data-frame library *)

Module Polars.

(** A column has one dtype; a cell of any dtype may be null.  A date is held as
    the number of days since 1970-01-01, an [Int64] as an integer of 64 bits, a
    [Float64] as a binary64 float. *)
Inductive Series : Type :=
| Int64 (values : list (option Z))
| Float64 (values : list (option float))
| Utf8 (values : list (option string))
| Date (values : list (option Z)).

(** A frame is its columns, in order, each under its name. *)
Definition DataFrame : Type := list (string * Series).

Inductive Value : Type :=
| Null
| IntValue (z : Z)
| FloatValue (f : float)
| StrValue (s : string)
| DateValue (days : Z).

Definition cell {A : Type} (inj : A -> Value) (c : option A) : Value :=
  match c with
  | Some a => inj a
  | None => Null
  end.

Definition cells (s : Series) : list Value :=
  match s with
  | Int64 xs => map (cell IntValue) xs
  | Float64 xs => map (cell FloatValue) xs
  | Utf8 xs => map (cell StrValue) xs
  | Date xs => map (cell DateValue) xs
  end.

Definition series_len (s : Series) : nat := List.length (cells s).

Definition columns (df : DataFrame) : list string := map fst df.

Definition has_column (name : string) (df : DataFrame) : bool := mem name (columns df).

Fixpoint get_column (name : string) (df : DataFrame) : option Series :=
  match df with
  | [] => None
  | (n, s) :: rest => if String.eqb name n then Some s else get_column name rest
  end.

Definition height (df : DataFrame) : nat :=
  match df with
  | [] => 0
  | (_, s) :: _ => series_len s
  end.

(** Every column of a frame has the frame's height. *)
Definition uniform (n : nat) (df : DataFrame) : Prop :=
  Forall (fun c => series_len (snd c) = n) df.

(** The rows of a frame of height [n]: row [i] holds cell [i] of each column. *)
Fixpoint transpose (n : nat) (cols : list (list Value)) : list (list Value) :=
  match n with
  | O => []
  | S n' => map (hd Null) cols :: transpose n' (map (@tl Value) cols)
  end.

Definition rows (df : DataFrame) : list (list Value) :=
  transpose (height df) (map (fun c => cells (snd c)) df).

(** The elements of [l] at the places where the mask holds. *)
Fixpoint take_mask {A : Type} (mask : list bool) (l : list A) : list A :=
  match mask, l with
  | b :: mask', x :: l' => if b then x :: take_mask mask' l' else take_mask mask' l'
  | _, _ => []
  end.

Definition filter_series (mask : list bool) (s : Series) : Series :=
  match s with
  | Int64 xs => Int64 (take_mask mask xs)
  | Float64 xs => Float64 (take_mask mask xs)
  | Utf8 xs => Utf8 (take_mask mask xs)
  | Date xs => Date (take_mask mask xs)
  end.

(** A filter keeps a row when the predicate is true on it, and drops it when
    the predicate is false or null. *)
Definition keep (p : option bool) : bool :=
  match p with
  | Some true => true
  | _ => false
  end.

(** [df.filter(predicate)]. *)
Definition filter_frame (predicate : list (option bool)) (df : DataFrame) : DataFrame :=
  let mask := map keep predicate in
  map (fun c => (fst c, filter_series mask (snd c))) df.

(** The logical and of two boolean expressions, null when it is not decided. *)
Definition and3 (a b : option bool) : option bool :=
  match a, b with
  | Some false, _ | _, Some false => Some false
  | Some true, Some true => Some true
  | _, _ => None
  end.

(** [df.with_columns(expr.alias(name))]: the column replaces the one of that
    name, or is added after the last one. *)
Fixpoint with_column (name : string) (s : Series) (df : DataFrame) : DataFrame :=
  match df with
  | [] => [(name, s)]
  | (n, old) :: rest =>
      if String.eqb name n then (n, s) :: rest else (n, old) :: with_column name s rest
  end.

(** The first name that occurs twice in a list of output names. *)
Fixpoint first_duplicate (names : list string) : option string :=
  match names with
  | [] => None
  | n :: rest => if mem n rest then Some n else first_duplicate rest
  end.

(** An integer of 64 bits wraps around: the sum of an [Int64] column is not
    checked for overflow. *)
Definition wrap64 (z : Z) : Z := (z + 2 ^ 63) mod 2 ^ 64 - 2 ^ 63.

(** The values of a column that are not null. *)
Fixpoint present {A : Type} (l : list (option A)) : list A :=
  match l with
  | [] => []
  | Some a :: l' => a :: present l'
  | None :: l' => present l'
  end.

Definition int_sum (xs : list (option Z)) : Z :=
  fold_left (fun acc x => wrap64 (acc + x)) (present xs) 0%Z.

Definition float_sum (xs : list (option float)) : float :=
  fold_left PrimFloat.add (present xs) 0%float.

(** [pl.col(name).sum()] over a whole column: one cell.  Nulls are skipped, and
    a sum is defined on the numeric dtypes only. *)
Definition sum_series (name : string) (s : Series) : Result Series :=
  match s with
  | Int64 xs => Ok (Int64 [Some (int_sum xs)])
  | Float64 xs => Ok (Float64 [Some (float_sum xs)])
  | Utf8 _ | Date _ => Err (InvalidOperationError name)
  end.

(** The same sum within each of the given groups of rows. *)
Definition sum_groups (groups : list (list bool)) (name : string) (s : Series)
    : Result Series :=
  match s with
  | Int64 xs => Ok (Int64 (map (fun g => Some (int_sum (take_mask g xs))) groups))
  | Float64 xs => Ok (Float64 (map (fun g => Some (float_sum (take_mask g xs))) groups))
  | Utf8 _ | Date _ => Err (InvalidOperationError name)
  end.

(** The sum of a whole column, as a cell. *)
Definition total (s : Series) : Value :=
  match s with
  | Int64 xs => IntValue (int_sum xs)
  | Float64 xs => FloatValue (float_sum xs)
  | Utf8 _ | Date _ => Null
  end.

Definition numeric (s : Series) : bool :=
  match s with
  | Int64 _ | Float64 _ => true
  | Utf8 _ | Date _ => false
  end.

(** The columns [agg(pl.col(m)).alias(m)] of the named columns. *)
Fixpoint aggregate (agg : string -> Series -> Result Series)
    (df : DataFrame) (names : list string) : Result DataFrame :=
  match names with
  | [] => Ok []
  | m :: rest =>
      match get_column m df with
      | None => Err (ColumnNotFound m)
      | Some s =>
          summed <- agg m s ;;
          others <- aggregate agg df rest ;;
          Ok ((m, summed) :: others)
      end
  end.

(** [df.select([pl.col(m).sum().alias(m) for m in names])]: one row of sums, an
    empty frame for no expression, and an error when two outputs share a name. *)
Definition select_sums (df : DataFrame) (names : list string) : Result DataFrame :=
  match first_duplicate names with
  | Some n => Err (DuplicateError n)
  | None => aggregate sum_series df names
  end.

Definition value_eqb (a b : Value) : bool :=
  match a, b with
  | Null, Null => true
  | IntValue x, IntValue y => Z.eqb x y
  | FloatValue x, FloatValue y => PrimFloat.Leibniz.eqb x y
  | StrValue x, StrValue y => String.eqb x y
  | DateValue x, DateValue y => Z.eqb x y
  | _, _ => false
  end.

Fixpoint key_eqb (k1 k2 : list Value) : bool :=
  match k1, k2 with
  | [], [] => true
  | a :: k1', b :: k2' => value_eqb a b && key_eqb k1' k2'
  | _, _ => false
  end.

(** For every row, whether its key has not occurred in a row before it. *)
Fixpoint first_occurrences (seen keys : list (list Value)) : list bool :=
  match keys with
  | [] => []
  | k :: rest =>
      if existsb (key_eqb k) seen then false :: first_occurrences seen rest
      else true :: first_occurrences (k :: seen) rest
  end.

(** [df.group_by(by).agg([pl.col(m).sum().alias(m) for m in names])].  The key
    columns come first, then the sums; the groups are listed in the order in
    which their keys first occur (the library fixes no order of its own). *)
Definition group_by_sums (df : DataFrame) (by_ names : list string) : Result DataFrame :=
  match first_duplicate (by_ ++ names) with
  | Some n => Err (DuplicateError n)
  | None =>
      match filter (fun d => negb (has_column d df)) by_ with
      | d :: _ => Err (ColumnNotFound d)
      | [] =>
          let key_columns :=
            map (fun d => match get_column d df with
                          | Some s => cells s
                          | None => []
                          end) by_ in
          let keys := transpose (height df) key_columns in
          let firsts := first_occurrences [] keys in
          let groups := map (fun k => map (key_eqb k) keys) (take_mask firsts keys) in
          let key_frame :=
            map (fun d => (d, match get_column d df with
                              | Some s => filter_series firsts s
                              | None => Utf8 []
                              end)) by_ in
          sums <- aggregate (sum_groups groups) df names ;;
          Ok (key_frame ++ sums)
      end
  end.

(** [df.select(names)]. *)
Fixpoint select (df : DataFrame) (names : list string) : Result DataFrame :=
  match names with
  | [] => Ok []
  | n :: rest =>
      match get_column n df with
      | None => Err (ColumnNotFound n)
      | Some s => others <- select df rest ;; Ok ((n, s) :: others)
      end
  end.

(** The float of an integer of 64 bits, rounded to the nearest. *)
Definition float_of_int (z : Z) : float :=
  if (z =? - 2 ^ 63)%Z then PrimFloat.opp (Z.ldexp 1%float 63)
  else if (z <? 0)%Z then PrimFloat.opp (PrimFloat.of_uint63 (Uint63.of_Z (- z)))
  else PrimFloat.of_uint63 (Uint63.of_Z z).

End Polars.

(** * The configuration ([core/config.py]) *)

Module Config.

Record SourceConfig : Type := mkSourceConfig {
  type : string;
  path : option string;
  connection_string : option string;
  query : option string;
  table : option string;
  date_col : string;
  dimensions : list string;
  metrics : list string;
  join_key : option (list string)
}.

Record DatasetConfig : Type := mkDatasetConfig {
  primary_source : string;
  sources : list (string * SourceConfig)
}.

Record ComparisonConfig : Type := mkComparisonConfig {
  current_start : string;
  current_end : string;
  previous_start : string;
  previous_end : string
}.

Record ReportConfig : Type := mkReportConfig {
  primary_date_col : string;
  comparison : ComparisonConfig;
  primary_dims : list string;
  kpi_priority : list string
}.

Record InsightConfig : Type := mkInsightConfig {
  dataset : DatasetConfig;
  derived_metrics : list (string * string);
  report : ReportConfig
}.

(** [d[key]] on a dict: the value, or a [KeyError]. *)
Fixpoint lookup {A : Type} (key : string) (d : list (string * A)) : Result A :=
  match d with
  | [] => Err (KeyError key)
  | (k, v) :: rest => if String.eqb key k then Ok v else lookup key rest
  end.

End Config.

(** * Ingestion ([engine/ingest.py]) *)

Module Ingest.

Import Polars Config.

Definition comma : ascii := ","%char.
Definition semicolon : ascii := ";"%char.
Definition tab : ascii := "009"%char.

(** [line.count(c)] for a single character. *)
Fixpoint count (c : ascii) (line : string) : nat :=
  match line with
  | EmptyString => 0
  | String a rest => (if Ascii.eqb a c then 1 else 0) + count c rest
  end.

(** The delimiter [load_csv_source] detects from the first line of the file. *)
Definition detect_delimiter (first_line : string) : ascii :=
  let delimiter := comma in
  let semicolon_count := count semicolon first_line in
  let comma_count := count comma first_line in
  let tab_count := count tab first_line in
  if (comma_count <? semicolon_count) && (tab_count <? semicolon_count) then semicolon
  else if (comma_count <? tab_count) && (semicolon_count <? tab_count) then tab
  else delimiter.

(** The columns [load_database_source] selects. *)
Definition select_columns (source_config : SourceConfig) : list string :=
  let columns := [] in
  let columns :=
    match dimensions source_config with
    | [] => columns
    | _ => columns ++ dimensions source_config
    end in
  let columns :=
    match metrics source_config with
    | [] => columns
    | _ => columns ++ metrics source_config
    end in
  let columns :=
    if negb (String.eqb (date_col source_config) EmptyString)
       && negb (mem (date_col source_config) columns)
    then columns ++ [date_col source_config]
    else columns in
  match join_key source_config with
  | Some keys =>
      fold_left append_new keys columns
  | None => columns
  end.

(** The text an f-string gives an optional name. *)
Definition format_optional (name : option string) : string :=
  match name with
  | Some n => n
  | None => "None"
  end.

(** The query [load_database_source] generates. *)
Definition synthesize_query (source_config : SourceConfig) : string :=
  let table_name := format_optional (table source_config) in
  match select_columns source_config with
  | [] => ("SELECT * FROM " ++ quoted table_name)%string
  | columns =>
      let columns_str := join ", " (map quoted columns) in
      ("SELECT " ++ columns_str ++ " FROM " ++ quoted table_name)%string
  end.

Section Sources.

(** The file system, the database clients and the engines behind the loader
    and the joiner. *)
Variable is_absolute : string -> bool.
Variable path_join : string -> string -> string.
Variable path_exists : string -> bool.
Variable readline : string -> string.
Variable read_csv : string -> ascii -> Result DataFrame.
Variable connectorx_read_sql : string -> string -> Result DataFrame.
Variable sqlalchemy_read_sql : string -> string -> Result DataFrame.
Variable get_connection_string : SourceConfig -> Result string.
Variable duckdb_execute : list (string * DataFrame) -> string -> Result DataFrame.
Variable left_join : DataFrame -> DataFrame -> list string -> Result DataFrame.

Definition load_csv_source (source_name : string) (source_config : SourceConfig)
    (base_path : string) : Result DataFrame :=
  match path source_config with
  | None => Err TypeError
  | Some file_path =>
      let file_path :=
        if negb (String.eqb base_path EmptyString) && negb (is_absolute file_path)
        then path_join base_path file_path
        else file_path in
      if negb (path_exists file_path) then Err (NotFound file_path)
      else
        let first_line := readline file_path in
        let delimiter := detect_delimiter first_line in
        read_csv file_path delimiter
  end.

Definition load_sql_source (source_name : string) (source_config : SourceConfig)
    : Result DataFrame :=
  match connection_string source_config, query source_config with
  | Some connection_string, Some query =>
      try_except (connectorx_read_sql connection_string query)
        (fun _ => sqlalchemy_read_sql connection_string query)
  | _, _ => Err TypeError
  end.

Definition load_database_source (source_name : string) (source_config : SourceConfig)
    : Result DataFrame :=
  connection_string <- get_connection_string source_config ;;
  let query := synthesize_query source_config in
  try_except (connectorx_read_sql connection_string query)
    (fun _ => sqlalchemy_read_sql connection_string query).

Definition load_source (source_name : string) (source_config : SourceConfig)
    (base_path : string) : Result DataFrame :=
  let source_type := type source_config in
  if String.eqb source_type "csv" then load_csv_source source_name source_config base_path
  else if String.eqb source_type "sql" then load_sql_source source_name source_config
  else if String.eqb source_type "database" then load_database_source source_name source_config
  else Err (UnknownSourceType source_type).

(** The join keys: the primary dimensions and then the primary date column. *)
Definition join_keys_of (config : InsightConfig) (primary_config : SourceConfig)
    : list string :=
  append_new (primary_dims (report config)) (date_col primary_config).

(** The SQL text of the join, for several sources. *)
Definition join_sql (sources : list (string * DataFrame)) (config : InsightConfig)
    : Result string :=
  let primary_name := primary_source (dataset config) in
  primary_config <- lookup primary_name (Config.sources (dataset config)) ;;
  let join_keys := join_keys_of config primary_config in
  let table_names := map fst sources in
  let primary_table := primary_name in
  primary_df <- lookup primary_table sources ;;
  let primary_cols := columns primary_df in
  let select_cols :=
    map (fun col => (quoted primary_table ++ "." ++ quoted col ++ " AS " ++ quoted col)%string)
        primary_cols
    ++ flat_map
         (fun t : string * DataFrame =>
            if String.eqb (fst t) primary_table then []
            else
              map (fun col =>
                     (quoted (fst t) ++ "." ++ quoted col ++ " AS " ++ quoted col)%string)
                  (filter (fun col => negb (mem col primary_cols) && negb (mem col join_keys))
                          (columns (snd t))))
         sources in
  let sql := ("SELECT " ++ join ", " select_cols ++ " FROM " ++ quoted primary_table)%string in
  Ok (fold_left
        (fun sql (t : string * DataFrame) =>
           if String.eqb (fst t) primary_table then sql
           else
             let on_conditions :=
               map (fun key =>
                      (quoted primary_table ++ "." ++ quoted key ++ " = "
                       ++ quoted (fst t) ++ "." ++ quoted key)%string)
                   (filter (fun key => mem key (columns (snd t))) join_keys) in
             match on_conditions with
             | [] => sql
             | _ => (sql ++ " LEFT JOIN " ++ quoted (fst t) ++ " ON "
                     ++ join " AND " on_conditions)%string
             end)
        sources sql).

Definition join_sources_duckdb (sources : list (string * DataFrame)) (config : InsightConfig)
    : Result DataFrame :=
  match sources with
  | [(source_name, df)] => Ok df
  | _ =>
      sql <- join_sql sources config ;;
      duckdb_execute sources sql
  end.

Definition join_sources_polars (sources : list (string * DataFrame)) (config : InsightConfig)
    : Result DataFrame :=
  match sources with
  | [(source_name, df)] => Ok df
  | _ =>
      let primary_name := primary_source (dataset config) in
      result <- lookup primary_name sources ;;
      primary_config <- lookup primary_name (Config.sources (dataset config)) ;;
      let join_keys := join_keys_of config primary_config in
      fold_left
        (fun (acc : Result DataFrame) (t : string * DataFrame) =>
           result <- acc ;;
           if String.eqb (fst t) primary_name then Ok result
           else
             let df := snd t in
             let common_keys :=
               filter (fun k => has_column k df && has_column k result) join_keys in
             match common_keys with
             | [] => Ok result
             | _ =>
                 let right_cols :=
                   filter (fun c => negb (has_column c result) || mem c common_keys)
                          (columns df) in
                 df_subset <- select df right_cols ;;
                 left_join result df_subset common_keys
             end)
        sources (Ok result)
  end.

Definition join_sources (sources : list (string * DataFrame)) (config : InsightConfig)
    : Result DataFrame :=
  try_except (join_sources_duckdb sources config)
    (fun _ => join_sources_polars sources config).

End Sources.

(** ** Definitions the properties are stated with *)

(** The columns before the join keys are added. *)
Definition declared_columns (source_config : SourceConfig) : list string :=
  let columns := dimensions source_config ++ metrics source_config in
  if negb (String.eqb (date_col source_config) EmptyString)
     && negb (mem (date_col source_config) columns)
  then columns ++ [date_col source_config]
  else columns.

Definition keys_of (source_config : SourceConfig) : list string :=
  match join_key source_config with
  | Some keys => keys
  | None => []
  end.

(** ** Sample data *)

Local Open Scope string_scope.

Definition header_semicolons_tabs : string := ("a;b" ++ String tab "c")%string.

(** A table source like the one of the ingestion test, with join keys. *)
Definition conversions_source : SourceConfig :=
  mkSourceConfig "database" None None None (Some "conversions") "date"
    [ "campaign"; "geo" ] [ "conversions"; "revenue" ] (Some [ "campaign"; "geo"; "date" ]).

Definition overlapping_source : SourceConfig :=
  mkSourceConfig "database" None None None (Some "conversions") "date"
    [ "campaign" ] [ "campaign" ] None.

Definition undeclared_source : SourceConfig :=
  mkSourceConfig "database" None None None (Some "conversions") EmptyString [] [] None.

Local Close Scope string_scope.

(** ** Joining a single source *)

(** C9. Joining a mapping that holds exactly one table returns that table
    unchanged, whatever the configuration and the engines: neither strategy
    joins anything, adds a column or changes a row. *)
Theorem join_sources_single :
  forall (duckdb_execute : list (string * DataFrame) -> string -> Result DataFrame)
         (left_join : DataFrame -> DataFrame -> list string -> Result DataFrame)
         (config : InsightConfig) (source_name : string) (df : DataFrame),
    join_sources duckdb_execute left_join [(source_name, df)] config = Ok df /\
    join_sources_duckdb duckdb_execute [(source_name, df)] config = Ok df /\
    join_sources_polars left_join [(source_name, df)] config = Ok df.
Proof.
  intros duckdb_execute left_join config source_name df. repeat split.
Qed.

(** ** Delimiter detection *)

Lemma detect_delimiter_cases :
  forall line : string,
    detect_delimiter line = semicolon \/ detect_delimiter line = tab
    \/ detect_delimiter line = comma.
Proof.
  intro line. unfold detect_delimiter.
  destruct (_ && _); [ auto | destruct (_ && _); auto ].
Qed.

(** C2 (as amended). The delimiter is the semicolon exactly when semicolons
    outnumber both commas and tabs in the header line, the tab exactly when
    tabs outnumber both commas and semicolons, and the comma in every other
    case; so a semicolon or a tab is chosen only when it is the most frequent
    of the three. *)
Theorem detect_delimiter_spec :
  forall line : string,
    let semicolons := count semicolon line in
    let commas := count comma line in
    let tabs := count tab line in
    (detect_delimiter line = semicolon <-> commas < semicolons /\ tabs < semicolons) /\
    (detect_delimiter line = tab <-> commas < tabs /\ semicolons < tabs) /\
    (detect_delimiter line = comma <->
       ~ (commas < semicolons /\ tabs < semicolons) /\ ~ (commas < tabs /\ semicolons < tabs)).
Proof.
  intro line. cbv zeta. unfold detect_delimiter.
  destruct (Nat.ltb_spec (count comma line) (count semicolon line));
    destruct (Nat.ltb_spec (count tab line) (count semicolon line));
    destruct (Nat.ltb_spec (count comma line) (count tab line));
    destruct (Nat.ltb_spec (count semicolon line) (count tab line));
    cbn [andb]; repeat split; intros; try discriminate; try lia; try reflexivity;
    try (intros [? ?]; lia).
Qed.

Lemma detect_delimiter_spec_witness :
  detect_delimiter "date;campaign;clicks" = semicolon.
Proof.
  apply (detect_delimiter_spec "date;campaign;clicks"). cbn. lia.
Defined.

(** C2 as stated fails: where semicolons and tabs tie, the comma is chosen
    although it occurs less often than either. *)
Lemma detect_delimiter_comma_not_most_frequent :
  detect_delimiter header_semicolons_tabs = comma /\
  count comma header_semicolons_tabs < count semicolon header_semicolons_tabs /\
  count comma header_semicolons_tabs < count tab header_semicolons_tabs.
Proof.
  repeat split; cbn; lia.
Qed.

(** ** The generated query *)

Lemma append_new_fold_NoDup :
  forall keys columns : list string,
    NoDup columns -> NoDup (fold_left append_new keys columns).
Proof.
  induction keys as [ | k keys IH ]; intros columns H; simpl.
  - exact H.
  - apply IH. unfold append_new. destruct (mem k columns) eqn:E; [ exact H | ].
    apply NoDup_app; [ exact H | repeat constructor; intros [] | ].
    intros x Hx [ <- | [] ]. apply mem_In in Hx. congruence.
Qed.

Lemma append_new_fold_In :
  forall (keys columns : list string) (c : string),
    In c (fold_left append_new keys columns) <-> In c columns \/ In c keys.
Proof.
  induction keys as [ | k keys IH ]; intros columns c; simpl.
  - tauto.
  - rewrite IH. unfold append_new. destruct (mem k columns) eqn:E.
    + apply mem_In in E. split; [ tauto | ].
      intros [ H | [ <- | H ] ]; auto.
    + rewrite in_app_iff. simpl. tauto.
Qed.

Lemma select_columns_unfold :
  forall source_config : SourceConfig,
    select_columns source_config
    = fold_left append_new (keys_of source_config) (declared_columns source_config).
Proof.
  intro cfg. unfold select_columns, declared_columns, keys_of.
  assert (E : (match metrics cfg with
               | [] => match dimensions cfg with [] => [] | _ => [] ++ dimensions cfg end
               | _ => match dimensions cfg with [] => [] | _ => [] ++ dimensions cfg end
                      ++ metrics cfg
               end) = dimensions cfg ++ metrics cfg).
  { destruct (dimensions cfg), (metrics cfg); simpl; rewrite ?app_nil_r; reflexivity. }
  rewrite E. destruct (join_key cfg); reflexivity.
Qed.

(** C3 (as amended). When no name is repeated among the declared dimensions
    and metrics, the generated query selects the declared dimension, metric,
    date and join-key columns with no column name twice, from the declared
    table; every declared column is selected and nothing else is; and when no
    column is declared the query is [SELECT *]. *)
Theorem synthesize_query_spec :
  forall source_config : SourceConfig,
    NoDup (dimensions source_config ++ metrics source_config) ->
    let columns := select_columns source_config in
    let table_name := format_optional (table source_config) in
    NoDup columns /\
    (forall c : string,
        In c columns <->
        In c (dimensions source_config) \/ In c (metrics source_config)
        \/ (c = date_col source_config /\ c <> EmptyString)
        \/ In c (keys_of source_config)) /\
    (columns <> [] ->
       synthesize_query source_config
       = ("SELECT " ++ join ", " (map quoted columns) ++ " FROM " ++ quoted table_name)%string) /\
    (columns = [] ->
       synthesize_query source_config = ("SELECT * FROM " ++ quoted table_name)%string).
Proof.
  intros cfg Hnd. cbv zeta. rewrite select_columns_unfold.
  assert (Hdecl : NoDup (declared_columns cfg)).
  { unfold declared_columns.
    destruct (negb (String.eqb (date_col cfg) EmptyString)); cbn [andb]; [ | exact Hnd ].
    destruct (mem (date_col cfg) (dimensions cfg ++ metrics cfg)) eqn:E;
      cbn [negb]; [ exact Hnd | ].
    apply NoDup_app; [ exact Hnd | repeat constructor; intros [] | ].
    intros x Hx [ <- | [] ]. apply mem_In in Hx. congruence. }
  repeat split.
  - apply append_new_fold_NoDup, Hdecl.
  - intro H. apply append_new_fold_In in H. destruct H as [ H | H ]; [ | tauto ].
    unfold declared_columns in H.
    destruct (String.eqb_spec (date_col cfg) EmptyString) as [ E | NE ]; cbn [negb andb] in H.
    + apply in_app_iff in H. tauto.
    + destruct (mem (date_col cfg) (dimensions cfg ++ metrics cfg)); cbn [negb] in H.
      * apply in_app_iff in H. tauto.
      * rewrite !in_app_iff in H. simpl in H.
        destruct H as [ [ H | H ] | [ <- | [] ] ]; auto.
  - intro H. apply append_new_fold_In.
    destruct H as [ H | [ H | [ [ -> NE ] | H ] ] ]; [ | | | tauto ]; left;
      unfold declared_columns.
    + destruct (_ && _); rewrite ?in_app_iff; tauto.
    + destruct (_ && _); rewrite ?in_app_iff; tauto.
    + destruct (String.eqb_spec (date_col cfg) EmptyString) as [ E | _ ]; [ contradiction | ].
      cbn [negb andb].
      destruct (mem (date_col cfg) (dimensions cfg ++ metrics cfg)) eqn:E; cbn [negb].
      * apply mem_In in E. exact E.
      * rewrite in_app_iff. simpl. tauto.
  - intro Hne. unfold synthesize_query. rewrite select_columns_unfold.
    destruct (fold_left append_new (keys_of cfg) (declared_columns cfg));
      [ contradiction | reflexivity ].
  - intro He. unfold synthesize_query. rewrite select_columns_unfold, He. reflexivity.
Qed.

Local Open Scope string_scope.

Lemma synthesize_query_spec_witness :
  NoDup (select_columns conversions_source) /\
  select_columns conversions_source = [ "campaign"; "geo"; "conversions"; "revenue"; "date" ].
Proof.
  split.
  - apply (@synthesize_query_spec conversions_source).
    cbn. repeat constructor; cbn; intuition discriminate.
  - reflexivity.
Defined.

Example synthesize_query_undeclared :
  synthesize_query undeclared_source = ("SELECT * FROM " ++ quoted "conversions")%string.
Proof. reflexivity. Qed.

(** C3 as stated fails: a name declared both as a dimension and as a metric
    is selected twice. *)
Lemma synthesize_query_repeats_column :
  select_columns overlapping_source = [ "campaign"; "campaign"; "date" ] /\
  ~ NoDup (select_columns overlapping_source) /\
  synthesize_query overlapping_source
  = ("SELECT " ++ quoted "campaign" ++ ", " ++ quoted "campaign" ++ ", " ++ quoted "date"
     ++ " FROM " ++ quoted "conversions")%string.
Proof.
  repeat split.
  intro H. inversion H as [ | x l Hin _ ]; subst. apply Hin. left. reflexivity.
Qed.

End Ingest.

(** * Metrics ([engine/metrics.py]) *)

Module Metrics.

Import Polars Config.

(** ** Formulas

    The pattern [^\s*(\w+)\s*([+\-*/])\s*(\w+)\s*$] on ASCII text.  The three
    classes of characters are disjoint, so the greedy match is the only one. *)

Definition is_space (c : ascii) : bool :=
  let n := nat_of_ascii c in
  ((9 <=? n) && (n <=? 13)) || ((28 <=? n) && (n <=? 32)).

Definition is_word (c : ascii) : bool :=
  let n := nat_of_ascii c in
  ((48 <=? n) && (n <=? 57)) || ((65 <=? n) && (n <=? 90))
  || ((97 <=? n) && (n <=? 122)) || (n =? 95).

Definition is_operator (c : ascii) : bool :=
  Ascii.eqb c "+" || Ascii.eqb c "-" || Ascii.eqb c "*" || Ascii.eqb c "/".

Fixpoint skip_spaces (s : string) : string :=
  match s with
  | String c rest => if is_space c then skip_spaces rest else s
  | EmptyString => EmptyString
  end.

Fixpoint take_word (s : string) : string * string :=
  match s with
  | String c rest =>
      if is_word c then let (word, rest') := take_word rest in (String c word, rest')
      else (EmptyString, s)
  | EmptyString => (EmptyString, EmptyString)
  end.

Definition parse_formula (formula : string) : Result (string * ascii * string) :=
  let (operand1, rest) := take_word (skip_spaces formula) in
  match operand1, skip_spaces rest with
  | String _ _, String operator rest =>
      if is_operator operator then
        let (operand2, rest) := take_word (skip_spaces rest) in
        match operand2, skip_spaces rest with
        | String _ _, EmptyString => Ok (operand1, operator, operand2)
        | _, _ => Err (FormulaError formula)
        end
      else Err (FormulaError formula)
  | _, _ => Err (FormulaError formula)
  end.

(** ** Expressions on float columns *)

(** An arithmetic operation is null where an operand is null. *)
Definition lift2 (op : float -> float -> float) (a b : option float) : option float :=
  match a, b with
  | Some x, Some y => Some (op x y)
  | _, _ => None
  end.

(** [col != 0]. *)
Definition not_zero (b : option float) : option bool :=
  option_map (fun y => negb (PrimFloat.eqb y 0%float)) b.

(** [pl.when(p).then(t).otherwise(e)]: [t] where [p] is true, [e] where it is
    false or null. *)
Definition when_then_otherwise {A : Type} (p : option bool) (t e : A) : A :=
  match p with
  | Some true => t
  | _ => e
  end.

(** [pl.when(col2 != 0).then(col1 / col2).otherwise(0.0)], on one row. *)
Definition divide (a b : option float) : option float :=
  when_then_otherwise (not_zero b) (lift2 PrimFloat.div a b) (Some 0%float).

Definition elementwise (op : option float -> option float -> option float)
    (xs ys : list (option float)) : list (option float) :=
  map (fun xy => op (fst xy) (snd xy)) (combine xs ys).

Section Derive.

(** The library's reading of a text as a float, for a cast of a text column. *)
Variable str_to_float : string -> option float.

(** [pl.col(name).cast(pl.Float64)]: the cast is strict, a text that is not a
    number is an error. *)
Definition cast_float64 (name : string) (s : Series) : Result (list (option float)) :=
  match s with
  | Int64 xs => Ok (map (option_map float_of_int) xs)
  | Float64 xs => Ok xs
  | Date xs => Ok (map (option_map float_of_int) xs)
  | Utf8 xs =>
      if forallb (fun x => match x with
                           | Some text => match str_to_float text with
                                          | Some _ => true
                                          | None => false
                                          end
                           | None => true
                           end) xs
      then Ok (map (fun x => match x with
                             | Some text => str_to_float text
                             | None => None
                             end) xs)
      else Err (InvalidOperationError name)
  end.

(** An expression on float columns, evaluated on a frame. *)
Definition Expr : Type := DataFrame -> Result (list (option float)).

(** [pl.col(name).cast(pl.Float64)]. *)
Definition col_float64 (name : string) : Expr :=
  fun df =>
    match get_column name df with
    | Some s => cast_float64 name s
    | None => Err (ColumnNotFound name)
    end.

Definition binary (op : option float -> option float -> option float) (e1 e2 : Expr) : Expr :=
  fun df => xs <- e1 df ;; ys <- e2 df ;; Ok (elementwise op xs ys).

(** [df.with_columns(expr.alias(name))]. *)
Definition with_columns (df : DataFrame) (name : string) (expr : Expr) : Result DataFrame :=
  values <- expr df ;; Ok (with_column name (Float64 values) df).

Definition compute_derived_metric (df : DataFrame) (metric_name formula : string)
    : Result DataFrame :=
  parsed <- parse_formula formula ;;
  let '(operand1, operator, operand2) := parsed in
  if negb (has_column operand1 df) then Err (ColumnNotFound operand1)
  else if negb (has_column operand2 df) then Err (ColumnNotFound operand2)
  else
    let col1 := col_float64 operand1 in
    let col2 := col_float64 operand2 in
    expr <- (if Ascii.eqb operator "+" then Ok (binary (lift2 PrimFloat.add) col1 col2)
             else if Ascii.eqb operator "-" then Ok (binary (lift2 PrimFloat.sub) col1 col2)
             else if Ascii.eqb operator "*" then Ok (binary (lift2 PrimFloat.mul) col1 col2)
             else if Ascii.eqb operator "/" then Ok (binary divide col1 col2)
             else Err (UnsupportedOperator operator)) ;;
    with_columns df metric_name expr.

Definition compute_all_derived_metrics (df : DataFrame)
    (derived_metrics : list (string * string)) : Result DataFrame :=
  fold_left
    (fun (acc : Result DataFrame) (entry : string * string) =>
       df <- acc ;; compute_derived_metric df (fst entry) (snd entry))
    derived_metrics (Ok df).

End Derive.

(** ** Dates

    [datetime.strptime(text, "%Y-%m-%d").date()], as days since 1970-01-01. *)

Definition digit (c : ascii) : option Z :=
  let n := nat_of_ascii c in
  if (48 <=? n) && (n <=? 57) then Some (Z.of_nat (n - 48)) else None.

Definition in_range (lo hi : Z) (c : ascii) : option Z :=
  match digit c with
  | Some d => if ((lo <=? d) && (d <=? hi))%Z then Some d else None
  | None => None
  end.

Definition is_leap (year : Z) : bool :=
  ((year mod 4 =? 0) && (negb (year mod 100 =? 0) || (year mod 400 =? 0)))%Z.

Definition days_in_month (year month : Z) : Z :=
  if (month =? 2)%Z then (if is_leap year then 29 else 28)%Z
  else if ((month =? 4) || (month =? 6) || (month =? 9) || (month =? 11))%Z then 30%Z
  else 31%Z.

Definition days_before_year (year : Z) : Z :=
  let y := (year - 1)%Z in (y * 365 + y / 4 - y / 100 + y / 400)%Z.

Definition days_before_month (year month : Z) : Z :=
  fold_left (fun acc m => (acc + days_in_month year (Z.of_nat m))%Z)
            (seq 1 (Z.to_nat month - 1)) 0%Z.

(** [date(year, month, day).toordinal()], counted from 1970-01-01. *)
Definition epoch_days (year month day : Z) : Z :=
  (days_before_year year + days_before_month year month + day - 719163)%Z.

(** The day, [3[01]|[12]\d|0[1-9]|[1-9]| [1-9]]: the first alternative that
    matches, and the text left after it. *)
Definition match_day (s : string) : option (Z * string) :=
  let two (lo1 hi1 lo2 hi2 : Z) :=
    match s with
    | String a (String b rest) =>
        match in_range lo1 hi1 a, in_range lo2 hi2 b with
        | Some x, Some y => Some ((10 * x + y)%Z, rest)
        | _, _ => None
        end
    | _ => None
    end in
  match two 3%Z 3%Z 0%Z 1%Z with Some r => Some r | None =>
  match two 1%Z 2%Z 0%Z 9%Z with Some r => Some r | None =>
  match two 0%Z 0%Z 1%Z 9%Z with Some r => Some r | None =>
  match s with
  | String a rest =>
      match in_range 1%Z 9%Z a with
      | Some x => Some (x, rest)
      | None =>
          if Ascii.eqb a " " then
            match rest with
            | String b rest' =>
                match in_range 1%Z 9%Z b with
                | Some y => Some (y, rest')
                | None => None
                end
            | EmptyString => None
            end
          else None
      end
  | EmptyString => None
  end end end end.

(** The month, [1[0-2]|0[1-9]|[1-9]], then the hyphen and the day: an
    alternative stands when the rest of the pattern matches after it. *)
Definition match_month_day (s : string) : option (Z * Z * string) :=
  let after (month : Z) (rest : string) :=
    match rest with
    | String "-" rest' =>
        match match_day rest' with
        | Some (day, remaining) => Some (month, day, remaining)
        | None => None
        end
    | _ => None
    end in
  let two (lo1 hi1 lo2 hi2 : Z) :=
    match s with
    | String a (String b rest) =>
        match in_range lo1 hi1 a, in_range lo2 hi2 b with
        | Some x, Some y => after (10 * x + y)%Z rest
        | _, _ => None
        end
    | _ => None
    end in
  match two 1%Z 1%Z 0%Z 2%Z with Some r => Some r | None =>
  match two 0%Z 0%Z 1%Z 9%Z with Some r => Some r | None =>
  match s with
  | String a rest =>
      match in_range 1%Z 9%Z a with
      | Some x => after x rest
      | None => None
      end
  | EmptyString => None
  end end end.

Definition strptime (text : string) : Result Z :=
  match text with
  | String y1 (String y2 (String y3 (String y4 (String "-" rest)))) =>
      match digit y1, digit y2, digit y3, digit y4, match_month_day rest with
      | Some a, Some b, Some c, Some d, Some (month, day, EmptyString) =>
          let year := (1000 * a + 100 * b + 10 * c + d)%Z in
          if ((1 <=? year) && (day <=? days_in_month year month))%Z
          then Ok (epoch_days year month day)
          else Err (DateParseError text)
      | _, _, _, _, _ => Err (DateParseError text)
      end
  | _ => Err (DateParseError text)
  end.

(** ** Period splitting *)

(** [(pl.col(date_col) >= start) & (pl.col(date_col) <= end)], on one row. *)
Definition between (start end_ : Z) (d : option Z) : option bool :=
  and3 (option_map (fun x => (start <=? x)%Z) d) (option_map (fun x => (x <=? end_)%Z) d).

(** [df.filter(...)] on the date column; the comparison with a date is defined
    on a date column only. *)
Definition filter_period (df : DataFrame) (date_col : string) (start end_ : Z)
    : Result DataFrame :=
  match get_column date_col df with
  | None => Err (ColumnNotFound date_col)
  | Some (Date ds) => Ok (filter_frame (map (between start end_) ds) df)
  | Some _ => Err (InvalidOperationError date_col)
  end.

Definition split_by_period (df : DataFrame) (config : InsightConfig)
    : Result (DataFrame * DataFrame) :=
  let date_col := primary_date_col (report config) in
  let comparison := comparison (report config) in
  current_start <- strptime (current_start comparison) ;;
  current_end <- strptime (current_end comparison) ;;
  previous_start <- strptime (previous_start comparison) ;;
  previous_end <- strptime (previous_end comparison) ;;
  current_df <- filter_period df date_col current_start current_end ;;
  previous_df <- filter_period df date_col previous_start previous_end ;;
  Ok (current_df, previous_df).

(** ** Aggregation *)

Definition aggregate_by_dimensions (df : DataFrame) (dimensions metrics : list string)
    : Result DataFrame :=
  match dimensions with
  | [] =>
      let agg_exprs := filter (fun m => has_column m df) metrics in
      select_sums df agg_exprs
  | _ =>
      let missing_dims := filter (fun d => negb (has_column d df)) dimensions in
      match missing_dims with
      | _ :: _ => Err (MissingColumn missing_dims)
      | [] =>
          let agg_exprs := filter (fun m => has_column m df) metrics in
          match agg_exprs with
          | [] => Err NoValidMetrics
          | _ => group_by_sums df dimensions agg_exprs
          end
      end
  end.

Definition get_all_metrics (config : InsightConfig) : Result (list string) :=
  primary <- lookup (primary_source (dataset config)) (sources (dataset config)) ;;
  let metrics := Config.metrics primary ++ map fst (derived_metrics config) in
  Ok (fold_left append_new (kpi_priority (report config)) metrics).

(** ** Definitions the properties are stated with *)

Definition count_true (mask : list bool) : nat := List.length (filter (fun b => b) mask).

(** A date lies in the closed interval from [start] to [end_]. *)
Definition in_window (start end_ : Z) (d : option Z) : bool :=
  match d with
  | Some x => ((start <=? x) && (x <=? end_))%Z
  | None => false
  end.

(** ** Sample data *)

Local Open Scope string_scope.

(** The click table of the specification's example, with a row of no
    impressions. *)
Definition clicks_table : DataFrame :=
  [ ("date", Date [ Some 20416%Z; Some 20419%Z; Some 20400%Z ]);
    ("campaign", Utf8 [ Some "Retargeting"; Some "Brand"; Some "Retargeting" ]);
    ("clicks", Int64 [ Some 32%Z; Some 5%Z; Some 12%Z ]);
    ("impressions", Int64 [ Some 1024%Z; Some 0%Z; Some 48%Z ]) ].

Definition no_text_floats : string -> option float := fun _ => None.

Definition november_config : InsightConfig :=
  mkInsightConfig
    (mkDatasetConfig "clicks"
       [ ("clicks", mkSourceConfig "csv" (Some "data/clicks.csv") None None None "date"
                      [ "campaign" ] [ "clicks"; "impressions" ] None) ])
    [ ("ctr", "clicks / impressions") ]
    (mkReportConfig "date" (mkComparisonConfig "2025-11-24" "2025-11-30" "2025-11-17" "2025-11-23")
       [ "campaign" ] [ "ctr"; "clicks" ]).

(** Dates of the table: 2025-11-24 (first day of the current window),
    2025-11-23 (last day of the previous one), 2025-11-08 (in neither), and a
    null. *)
Definition dated_table : DataFrame :=
  [ ("date", Date [ Some 20416%Z; Some 20415%Z; Some 20400%Z; None ]);
    ("clicks", Int64 [ Some 32%Z; Some 5%Z; Some 12%Z; Some 7%Z ]) ].

Local Close Scope string_scope.

(** ** Facts about frames *)

Lemma has_column_get :
  forall (name : string) (df : DataFrame),
    has_column name df = true <-> exists s, get_column name df = Some s.
Proof.
  intros name df. unfold has_column, columns, mem.
  induction df as [ | [n s] df IH ]; simpl.
  - split; [ discriminate | intros [s H]; discriminate ].
  - destruct (String.eqb name n); simpl.
    + split; [ eauto | reflexivity ].
    + exact IH.
Qed.

Lemma get_column_with_column :
  forall (name : string) (s : Series) (df : DataFrame),
    get_column name (with_column name s df) = Some s.
Proof.
  intros name s df. induction df as [ | [n old] df IH ]; simpl.
  - rewrite String.eqb_refl. reflexivity.
  - destruct (String.eqb name n) eqn:E; simpl; rewrite E; [ reflexivity | exact IH ].
Qed.

Lemma take_mask_map :
  forall (A B : Type) (f : A -> B) (mask : list bool) (l : list A),
    take_mask mask (map f l) = map f (take_mask mask l).
Proof.
  intros A B f mask. induction mask as [ | b mask IH ]; intros [ | x l ]; simpl;
    try reflexivity.
  destruct b; simpl; rewrite IH; reflexivity.
Qed.

Lemma cells_filter_series :
  forall (mask : list bool) (s : Series),
    cells (filter_series mask s) = take_mask mask (cells s).
Proof.
  intros mask [ xs | xs | xs | xs ]; simpl; symmetry; apply take_mask_map.
Qed.

Lemma take_mask_length :
  forall (A : Type) (mask : list bool) (l : list A),
    List.length l = List.length mask -> List.length (take_mask mask l) = count_true mask.
Proof.
  intros A mask. unfold count_true.
  induction mask as [ | b mask IH ]; intros [ | x l ] H; simpl in *; try discriminate;
    try reflexivity.
  injection H as H. destruct b; simpl; rewrite IH by exact H; reflexivity.
Qed.

(** Filtering the columns of a frame by a mask filters its rows by it. *)
Lemma transpose_take_mask :
  forall (mask : list bool) (cols : list (list Value)),
    Forall (fun c => List.length c = List.length mask) cols ->
    transpose (count_true mask) (map (take_mask mask) cols)
    = take_mask mask (transpose (List.length mask) cols).
Proof.
  induction mask as [ | b mask IH ]; intros cols H.
  - reflexivity.
  - assert (Htl : Forall (fun c => List.length c = List.length mask) (map (@tl Value) cols)).
    { apply Forall_map. eapply Forall_impl; [ | exact H ].
      intros [ | x c ] Hc; simpl in *; [ discriminate | congruence ]. }
    specialize (IH _ Htl). rewrite map_map in IH.
    destruct b; cbn [List.length transpose take_mask].
    + unfold count_true in *. cbn [filter List.length transpose].
      rewrite !map_map. f_equal.
      * apply map_ext_Forall. eapply Forall_impl; [ | exact H ].
        intros [ | x c ] Hc; [ discriminate | reflexivity ].
      * rewrite <- IH. f_equal. apply map_ext_Forall. eapply Forall_impl; [ | exact H ].
        intros [ | x c ] Hc; [ discriminate | reflexivity ].
    + unfold count_true in *. cbn [filter].
      rewrite <- IH. f_equal. apply map_ext_Forall. eapply Forall_impl; [ | exact H ].
      intros [ | x c ] Hc; [ discriminate | reflexivity ].
Qed.

Lemma rows_filter_frame :
  forall (predicate : list (option bool)) (df : DataFrame),
    df <> [] ->
    uniform (List.length predicate) df ->
    rows (filter_frame predicate df) = take_mask (map keep predicate) (rows df).
Proof.
  intros predicate df Hne Hu. unfold rows, filter_frame. fold keep.
  set (mask := map keep predicate).
  assert (Hlen : List.length mask = List.length predicate) by apply length_map.
  assert (Hcols : Forall (fun c => List.length c = List.length mask)
                         (map (fun c : string * Series => cells (snd c)) df)).
  { apply Forall_map. eapply Forall_impl; [ | exact Hu ].
    intros [n s] Hc. unfold series_len in Hc. simpl in *. congruence. }
  rewrite map_map. cbn [snd].
  replace (map (fun x : string * Series => cells (filter_series mask (snd x))) df)
    with (map (take_mask mask) (map (fun c : string * Series => cells (snd c)) df)).
  2:{ rewrite map_map. apply map_ext. intro c. symmetry. apply cells_filter_series. }
  destruct df as [ | [n s] df ]; [ contradiction | ].
  cbn [height map fst snd].
  inversion Hu as [ | c l Hs Hrest ]; subst. cbn [snd] in Hs.
  unfold series_len at 1. rewrite cells_filter_series.
  rewrite take_mask_length by (unfold series_len in Hs; congruence).
  rewrite Hs, <- Hlen.
  apply (@transpose_take_mask mask (cells s :: map (fun c => cells (snd c)) df)).
  exact Hcols.
Qed.

Lemma columns_filter_frame :
  forall (predicate : list (option bool)) (df : DataFrame),
    columns (filter_frame predicate df) = columns df.
Proof.
  intros predicate df. unfold columns, filter_frame. rewrite map_map. reflexivity.
Qed.

(** ** The division policy *)

Lemma nth_error_elementwise :
  forall (op : option float -> option float -> option float)
         (xs ys : list (option float)) (row : nat) (x y : option float),
    nth_error xs row = Some x -> nth_error ys row = Some y ->
    nth_error (elementwise op xs ys) row = Some (op x y).
Proof.
  intros op xs. unfold elementwise.
  induction xs as [ | a xs IH ]; intros [ | b ys ] [ | row ] x y Hx Hy;
    simpl in *; try discriminate.
  - injection Hx as <-. injection Hy as <-. reflexivity.
  - apply IH; assumption.
Qed.

(** C4. For a formula whose operator is the division, on every row: where
    the divisor is equal to 0 the cell of the new column is exactly the float
    0.0 (not NaN, not an infinity, not an error), and where the divisor is
    another number the cell is the float quotient of the two operands cast to
    floats. *)
Theorem division_policy :
  forall (str_to_float : string -> option float) (df : DataFrame)
         (metric_name formula operand1 operand2 : string)
         (s1 s2 : Series) (col1 col2 : list (option float)),
    parse_formula formula = Ok (operand1, "/"%char, operand2) ->
    get_column operand1 df = Some s1 ->
    get_column operand2 df = Some s2 ->
    cast_float64 str_to_float operand1 s1 = Ok col1 ->
    cast_float64 str_to_float operand2 s2 = Ok col2 ->
    exists (out : list (option float)) (result : DataFrame),
      compute_derived_metric str_to_float df metric_name formula = Ok result /\
      get_column metric_name result = Some (Float64 out) /\
      forall (row : nat) (dividend : option float) (divisor : float),
        nth_error col1 row = Some dividend ->
        nth_error col2 row = Some (Some divisor) ->
        (PrimFloat.eqb divisor 0%float = true ->
           nth_error out row = Some (Some 0%float)) /\
        (PrimFloat.eqb divisor 0%float = false ->
           nth_error out row
           = Some (option_map (fun x => PrimFloat.div x divisor) dividend)).
Proof.
  intros str_to_float df metric_name formula operand1 operand2 s1 s2 col1 col2
         Hparse H1 H2 Hc1 Hc2.
  exists (elementwise divide col1 col2).
  exists (with_column metric_name (Float64 (elementwise divide col1 col2)) df).
  split; [ | split ].
  - unfold compute_derived_metric. rewrite Hparse. cbn [bind].
    rewrite (proj2 (has_column_get operand1 df)) by eauto.
    rewrite (proj2 (has_column_get operand2 df)) by eauto.
    cbn. unfold with_columns, binary, col_float64.
    rewrite H1, H2, Hc1, Hc2. reflexivity.
  - apply get_column_with_column.
  - intros row dividend divisor Hx Hy.
    rewrite (nth_error_elementwise divide _ _ _ Hx Hy).
    unfold divide, not_zero, when_then_otherwise. cbn [option_map].
    split; intros ->; cbn [negb]; [ reflexivity | ].
    destruct dividend; reflexivity.
Qed.

(** A null divisor is not a number other than 0 either: the cell is 0.0. *)
Lemma divide_null_divisor : forall dividend : option float, divide dividend None = Some 0%float.
Proof. reflexivity. Qed.

Example divide_by_negative_zero : divide (Some 1%float) (Some (-0)%float) = Some 0%float.
Proof. reflexivity. Qed.

Example int_sum_wraps : int_sum [ Some (2 ^ 63 - 1)%Z; Some 1%Z ] = (- 2 ^ 63)%Z.
Proof. reflexivity. Qed.

Local Open Scope string_scope.

Example ctr_of_clicks_table :
  compute_derived_metric no_text_floats clicks_table "ctr" "clicks / impressions"
  = Ok (clicks_table
        ++ [ ("ctr", Float64 [ Some 0.03125%float; Some 0%float; Some 0.25%float ]) ])%list.
Proof. reflexivity. Qed.

Lemma division_policy_witness :
  exists (out : list (option float)) (result : DataFrame),
    compute_derived_metric no_text_floats clicks_table "ctr" "clicks / impressions"
    = Ok result /\
    get_column "ctr" result = Some (Float64 out) /\
    forall (row : nat) (dividend : option float) (divisor : float),
      nth_error [ Some 32%float; Some 5%float; Some 12%float ] row = Some dividend ->
      nth_error [ Some 1024%float; Some 0%float; Some 48%float ] row = Some (Some divisor) ->
      (PrimFloat.eqb divisor 0%float = true -> nth_error out row = Some (Some 0%float)) /\
      (PrimFloat.eqb divisor 0%float = false ->
         nth_error out row = Some (option_map (fun x => PrimFloat.div x divisor) dividend)).
Proof.
  apply (@division_policy no_text_floats clicks_table "ctr" "clicks / impressions"
           "clicks" "impressions"
           (Int64 [ Some 32%Z; Some 5%Z; Some 12%Z ])
           (Int64 [ Some 1024%Z; Some 0%Z; Some 48%Z ])); reflexivity.
Defined.

Local Close Scope string_scope.

(** ** Period splitting *)

Lemma in_window_iff :
  forall (start end_ : Z) (d : option Z),
    in_window start end_ d = true <-> exists x : Z, d = Some x /\ (start <= x <= end_)%Z.
Proof.
  intros start end_ [ x | ]; simpl.
  - rewrite andb_true_iff, !Z.leb_le. split.
    + intros [H1 H2]. exists x. auto.
    + intros [y [E H]]. injection E as <-. exact H.
  - split; [ discriminate | intros [x [E _]]; discriminate ].
Qed.

Lemma keep_between :
  forall (start end_ : Z) (d : option Z),
    keep (between start end_ d) = in_window start end_ d.
Proof.
  intros start end_ [ x | ]; [ | reflexivity ].
  unfold between, in_window. cbn [option_map].
  destruct (start <=? x)%Z, (x <=? end_)%Z; reflexivity.
Qed.

Lemma filter_period_rows :
  forall (df : DataFrame) (date_col : string) (dates : list (option Z)) (start end_ : Z),
    uniform (List.length dates) df ->
    get_column date_col df = Some (Date dates) ->
    exists out : DataFrame,
      filter_period df date_col start end_ = Ok out /\
      columns out = columns df /\
      rows out = take_mask (map (in_window start end_) dates) (rows df).
Proof.
  intros df date_col dates start end_ Hu Hcol.
  unfold filter_period. rewrite Hcol. eexists. split; [ reflexivity | ].
  split; [ apply columns_filter_frame | ].
  rewrite rows_filter_frame.
  - rewrite map_map. f_equal. apply map_ext. intro d. apply keep_between.
  - intro E. subst. discriminate.
  - rewrite length_map. exact Hu.
Qed.

(** C8. On a table with a parsed date column the splitter returns two
    sub-tables and no error: the rows whose date lies in the closed interval
    from [current_start] to [current_end], and the rows whose date lies in the
    one from [previous_start] to [previous_end], both ends included.  A row is
    in a sub-table exactly when its date is in that window, so a row whose date
    is in neither window is in neither sub-table. *)
Theorem split_by_period_spec :
  forall (df : DataFrame) (config : InsightConfig) (dates : list (option Z))
         (cs ce ps pe : Z),
    uniform (List.length dates) df ->
    get_column (primary_date_col (report config)) df = Some (Date dates) ->
    strptime (current_start (comparison (report config))) = Ok cs ->
    strptime (current_end (comparison (report config))) = Ok ce ->
    strptime (previous_start (comparison (report config))) = Ok ps ->
    strptime (previous_end (comparison (report config))) = Ok pe ->
    exists current_df previous_df : DataFrame,
      split_by_period df config = Ok (current_df, previous_df) /\
      columns current_df = columns df /\
      columns previous_df = columns df /\
      rows current_df = take_mask (map (in_window cs ce) dates) (rows df) /\
      rows previous_df = take_mask (map (in_window ps pe) dates) (rows df) /\
      (forall d : option Z,
          (in_window cs ce d = true <-> exists x, d = Some x /\ (cs <= x <= ce)%Z) /\
          (in_window ps pe d = true <-> exists x, d = Some x /\ (ps <= x <= pe)%Z)).
Proof.
  intros df config dates cs ce ps pe Hu Hcol Hcs Hce Hps Hpe.
  destruct (@filter_period_rows df _ dates cs ce Hu Hcol) as [cur [Ecur [Ccur Rcur]]].
  destruct (@filter_period_rows df _ dates ps pe Hu Hcol) as [prev [Eprev [Cprev Rprev]]].
  exists cur, prev. unfold split_by_period.
  rewrite Hcs, Hce, Hps, Hpe. cbn [bind]. rewrite Ecur, Eprev. cbn [bind].
  repeat split; try assumption; try apply in_window_iff.
Qed.

Local Open Scope string_scope.

Lemma split_by_period_spec_witness :
  exists current_df previous_df : DataFrame,
    split_by_period dated_table november_config = Ok (current_df, previous_df) /\
    rows current_df = [ [ DateValue 20416; IntValue 32 ] ] /\
    rows previous_df = [ [ DateValue 20415; IntValue 5 ] ].
Proof.
  destruct (@split_by_period_spec dated_table november_config
              [ Some 20416%Z; Some 20415%Z; Some 20400%Z; None ]
              20416 20422 20409 20415)
    as [cur [prev [E [_ [_ [Rc [Rp _]]]]]]]; try reflexivity.
  - repeat constructor.
  - exists cur, prev. split; [ exact E | ]. split; [ exact Rc | exact Rp ].
Defined.

Local Close Scope string_scope.

(** ** Aggregation *)

Lemma filter_nil_iff :
  forall (A : Type) (f : A -> bool) (l : list A),
    filter f l = [] <-> forall a, In a l -> f a = false.
Proof.
  intros A f l. induction l as [ | x l IH ]; simpl.
  - split; [ intros _ a [] | reflexivity ].
  - destruct (f x) eqn:E.
    + split; [ discriminate | ]. intro H. specialize (H x (or_introl eq_refl)). congruence.
    + rewrite IH. split.
      * intros H a [ <- | Ha ]; auto.
      * intros H a Ha. apply H. right. exact Ha.
Qed.

Local Open Scope string_scope.

Example aggregate_by_campaign :
  aggregate_by_dimensions clicks_table [ "campaign" ] [ "clicks"; "impressions" ]
  = Ok [ ("campaign", Utf8 [ Some "Retargeting"; Some "Brand" ]);
         ("clicks", Int64 [ Some 44%Z; Some 5%Z ]);
         ("impressions", Int64 [ Some 1072%Z; Some 0%Z ]) ].
Proof. reflexivity. Qed.

(** With no dimension and none of the requested metrics among the columns,
    nothing is selected: the result is the table with no column and no row. *)
Lemma aggregate_without_dimensions_or_metrics :
  forall (df : DataFrame) (metrics : list string),
    (forall m, In m metrics -> has_column m df = false) ->
    aggregate_by_dimensions df [] metrics = Ok [].
Proof.
  intros df metrics H. unfold aggregate_by_dimensions.
  assert (Hf : filter (fun m => has_column m df) metrics = []).
  { apply filter_nil_iff. exact H. }
  rewrite Hf. reflexivity.
Qed.

(** C1. The branch for an empty dimension list returns before the check of
    the metrics that the branch for dimensions makes.  A request for a metric
    that is not a column fails with [NoValidMetrics] when there is a
    dimension, as the claim says; with no dimension the same request returns a
    table with no column and no row. *)
Lemma aggregate_by_dimensions_unchecked_metrics :
  has_column "revenue" clicks_table = false /\
  aggregate_by_dimensions clicks_table [ "campaign" ] [ "revenue" ] = Err NoValidMetrics /\
  aggregate_by_dimensions clicks_table [] [ "revenue" ] = Ok [] /\
  aggregate_by_dimensions clicks_table [] [ "revenue" ] <> Err NoValidMetrics.
Proof.
  split; [ reflexivity | ]. split; [ reflexivity | ].
  split; [ | discriminate ].
  apply aggregate_without_dimensions_or_metrics.
  intros m [ <- | [] ]. reflexivity.
Qed.

Local Close Scope string_scope.

End Metrics.

(** * Insights *)

Module Insights.

Local Open Scope Q_scope.

(** The engine's numbers are Python floats.  A record holds them here as exact
    rationals, the finite values: the ranking, the summary and the extraction
    only compare and order the numbers of the records, with [==] as Python's
    [==] and [<] as its [<].  What the arithmetic gives on binary64 floats is
    the subject of the module [Binary64] below. *)

Record InsightRecord : Type := mkInsightRecord {
  dimensions : list (string * Polars.Value);
  metric : string;
  current_value : Q;
  previous_value : Q;
  delta : Q;
  delta_pct : Q;
  impact_score : Q;
  direction : string
}.

Definition compute_delta (current previous : Q) : Q := current - previous.

Definition Qltb (x y : Q) : bool := negb (Qle_bool y x).

Definition compute_delta_pct (current previous : Q) : Q :=
  if Qeq_bool previous 0 then
    if Qeq_bool current 0 then 0
    else if Qltb 0 current then 100 else -100
  else ((current - previous) / Qabs previous) * 100.

(** Python's [round(x)]: the nearest integer, a tie going to the even one. *)
Definition round_half_even (x : Q) : Z :=
  let f := Qfloor x in
  match Qcompare (x - inject_Z f) (1 # 2) with
  | Lt => f
  | Gt => (f + 1)%Z
  | Eq => if Z.even f then f else (f + 1)%Z
  end.

(** Python's [round(x, ndigits)]. *)
Definition round_ndigits (x : Q) (ndigits : nat) : Q :=
  let scale := inject_Z (10 ^ Z.of_nat ndigits) in
  inject_Z (round_half_even (x * scale)) / scale.

Definition compute_impact_score
    (delta delta_pct : Q) (metric_priority total_metrics : Z) : Result Q :=
  let pct_factor := Qmin (Qabs delta_pct) 200 / 200 in
  if (total_metrics =? 0)%Z then Err ZeroDivisionError
  else
    let priority_weight :=
      inject_Z (total_metrics - metric_priority) / inject_Z total_metrics in
    let raw_score := Qabs delta * (1 + pct_factor) * (1 + priority_weight) in
    Ok (round_ndigits raw_score 4).

(** [sorted(l, key=lambda x: x.impact_score, reverse=True)]: a stable sort by
    descending key, which compares keys with [<] only; records of equal key
    keep the order they had. *)
Fixpoint insert_desc (x : InsightRecord) (l : list InsightRecord) : list InsightRecord :=
  match l with
  | [] => [x]
  | y :: l' =>
      if Qltb (impact_score x) (impact_score y) then y :: insert_desc x l'
      else x :: y :: l'
  end.

Fixpoint sorted_desc (l : list InsightRecord) : list InsightRecord :=
  match l with
  | [] => []
  | x :: l' => insert_desc x (sorted_desc l')
  end.

(** [top_n] is an [Optional[int]]: [None], or any integer. *)
Definition rank_insights
    (insights : list InsightRecord) (top_n : option Z) (min_impact : Q)
    : list InsightRecord :=
  let filtered := filter (fun i => Qle_bool min_impact (impact_score i)) insights in
  let ranked := sorted_desc filtered in
  match top_n with
  | Some n => if (n =? 0)%Z then ranked else slice_to n ranked
  | None => ranked
  end.

Definition direction_of (delta : Q) : string :=
  if Qltb 0 delta then "up" else if Qltb delta 0 then "down" else "flat".

(** The record [extract_insights] builds for one row and one metric. *)
Definition make_insight (dim_values : list (string * Polars.Value)) (metric : string)
    (priority_idx total_metrics : Z) (current_val previous_val : Q) : Result InsightRecord :=
  let delta := compute_delta current_val previous_val in
  let delta_pct := compute_delta_pct current_val previous_val in
  impact <- compute_impact_score delta delta_pct priority_idx total_metrics ;;
  Ok (mkInsightRecord dim_values metric
        (round_ndigits current_val 4) (round_ndigits previous_val 4)
        (round_ndigits delta 4) (round_ndigits delta_pct 2)
        impact (direction_of delta)).

(** ** Definitions the properties are stated with *)

(** A list in ranked order: every score is at least the next one. *)
Definition ranked_order : list InsightRecord -> Prop :=
  Sorted (fun a b => impact_score b <= impact_score a).

Definition keeps (min_impact : Q) (i : InsightRecord) : bool :=
  Qle_bool min_impact (impact_score i).

(** What [rank_insights] does after sorting. *)
Definition truncate (top_n : option Z) (ranked : list InsightRecord) : list InsightRecord :=
  match top_n with
  | Some n => if (n =? 0)%Z then ranked else slice_to n ranked
  | None => ranked
  end.

(** ** Sample data *)

Local Open Scope string_scope.

Definition sample_insight (name : string) (score : Q) : InsightRecord :=
  mkInsightRecord [] name 0 0 0 0 score "flat".

Definition sample_insights : list InsightRecord :=
  [ sample_insight "clicks" 10; sample_insight "spend" 30; sample_insight "ctr" 20 ].

Local Close Scope string_scope.

(** ** Facts about comparison and rounding *)

Lemma Qltb_true : forall x y : Q, Qltb x y = true <-> x < y.
Proof.
  intros x y. unfold Qltb. rewrite negb_true_iff. split.
  - intro H. apply Qnot_le_lt. intro Hle.
    apply Qle_bool_iff in Hle. congruence.
  - intro H. destruct (Qle_bool y x) eqn:E; [ | reflexivity ].
    apply Qle_bool_iff in E. exfalso. exact (Qlt_not_le _ _ H E).
Qed.

Lemma Qltb_false : forall x y : Q, Qltb x y = false <-> y <= x.
Proof.
  intros x y. unfold Qltb. rewrite negb_false_iff. apply Qle_bool_iff.
Qed.

Lemma round_half_even_bounds :
  forall x : Q, (Qfloor x <= round_half_even x <= Qfloor x + 1)%Z.
Proof.
  intro x. unfold round_half_even.
  destruct (Qcompare (x - inject_Z (Qfloor x)) (1 # 2)); [ destruct (Z.even (Qfloor x)) | | ]; lia.
Qed.

Lemma round_half_even_monotone :
  forall x y : Q, x <= y -> (round_half_even x <= round_half_even y)%Z.
Proof.
  intros x y Hxy.
  pose proof (Qfloor_resp_le _ _ Hxy) as Hfl.
  pose proof (round_half_even_bounds x) as Bx.
  pose proof (round_half_even_bounds y) as By.
  destruct (Z.eq_dec (Qfloor x) (Qfloor y)) as [E | NE]; [ | lia ].
  assert (Hfrac : x - inject_Z (Qfloor x) <= y - inject_Z (Qfloor y)).
  { rewrite E. apply Qplus_le_compat; [ exact Hxy | apply Qle_refl ]. }
  unfold round_half_even in *. rewrite <- E in *.
  destruct (Qcompare_spec (x - inject_Z (Qfloor x)) (1 # 2)) as [Ex | Lx | Gx];
    destruct (Qcompare_spec (y - inject_Z (Qfloor x)) (1 # 2)) as [Ey | Ly | Gy];
    try (destruct (Z.even (Qfloor x))); try lia; exfalso; lra.
Qed.

Lemma scale_pos : forall n : nat, 0 < inject_Z (10 ^ Z.of_nat n).
Proof.
  intro n. change 0 with (inject_Z 0). rewrite <- Zlt_Qlt.
  apply Z.pow_pos_nonneg; lia.
Qed.

(** ** Impact score *)

Lemma compute_impact_score_ok :
  forall (delta delta_pct : Q) (metric_priority total_metrics : Z),
    (0 < total_metrics)%Z ->
    compute_impact_score delta delta_pct metric_priority total_metrics
    = Ok (round_ndigits
            (Qabs delta * (1 + Qmin (Qabs delta_pct) 200 / 200)
             * (1 + inject_Z (total_metrics - metric_priority) / inject_Z total_metrics))
            4).
Proof.
  intros delta dp p t Ht. unfold compute_impact_score.
  destruct (Z.eqb_spec t 0) as [E | _]; [ lia | reflexivity ].
Qed.

(** ** Ranking *)

Lemma insert_desc_ranked :
  forall (x : InsightRecord) (l : list InsightRecord),
    ranked_order l -> ranked_order (insert_desc x l).
Proof.
  unfold ranked_order. intros x l H. induction H as [ | y l Hl IH Hd ]; simpl.
  - repeat constructor.
  - destruct (Qltb (impact_score x) (impact_score y)) eqn:E.
    + constructor; [ exact IH | ].
      apply Qltb_true in E.
      destruct l as [ | z l ]; simpl.
      * constructor. apply Qlt_le_weak, E.
      * inversion Hd; subst.
        destruct (Qltb (impact_score x) (impact_score z)); constructor;
          [ assumption | apply Qlt_le_weak, E ].
    + apply Qltb_false in E. constructor; [ constructor; assumption | ].
      constructor. exact E.
Qed.

Lemma sorted_desc_ranked : forall l : list InsightRecord, ranked_order (sorted_desc l).
Proof.
  induction l as [ | x l IH ]; simpl.
  - constructor.
  - apply insert_desc_ranked, IH.
Qed.

Lemma sorted_desc_fixes_ranked :
  forall l : list InsightRecord, ranked_order l -> sorted_desc l = l.
Proof.
  unfold ranked_order. intros l H. induction H as [ | x l Hl IH Hd ]; simpl.
  - reflexivity.
  - rewrite IH. destruct Hd as [ | y l Hxy ]; simpl.
    + reflexivity.
    + apply Qltb_false in Hxy. rewrite Hxy. reflexivity.
Qed.

Lemma insert_desc_Forall :
  forall (P : InsightRecord -> Prop) (x : InsightRecord) (l : list InsightRecord),
    P x -> Forall P l -> Forall P (insert_desc x l).
Proof.
  intros P x l Hx H. induction H as [ | y l Hy Hl IH ]; simpl.
  - constructor; [ exact Hx | constructor ].
  - destruct (Qltb (impact_score x) (impact_score y)); repeat constructor; assumption.
Qed.

Lemma sorted_desc_Forall :
  forall (P : InsightRecord -> Prop) (l : list InsightRecord),
    Forall P l -> Forall P (sorted_desc l).
Proof.
  intros P l H. induction H; simpl.
  - constructor.
  - apply insert_desc_Forall; assumption.
Qed.

Lemma filter_Forall_true :
  forall (A : Type) (f : A -> bool) (l : list A), Forall (fun a => f a = true) (filter f l).
Proof.
  intros A f l. apply Forall_forall. intros a Ha. apply filter_In in Ha. apply Ha.
Qed.

Lemma filter_fixes_Forall :
  forall (A : Type) (f : A -> bool) (l : list A),
    Forall (fun a => f a = true) l -> filter f l = l.
Proof.
  intros A f l H. induction H as [ | a l Ha Hl IH ]; simpl.
  - reflexivity.
  - rewrite Ha, IH. reflexivity.
Qed.

Lemma firstn_ranked :
  forall (n : nat) (l : list InsightRecord), ranked_order l -> ranked_order (firstn n l).
Proof.
  unfold ranked_order. intros n l H. revert n.
  induction H as [ | x l Hl IH Hd ]; intros [ | n ]; simpl; try constructor.
  - apply IH.
  - destruct Hd as [ | y l Hxy ]; destruct n; simpl; constructor. exact Hxy.
Qed.

Lemma firstn_Forall :
  forall (A : Type) (P : A -> Prop) (n : nat) (l : list A),
    Forall P l -> Forall P (firstn n l).
Proof.
  intros A P n l H. revert n.
  induction H; intros [ | n ]; simpl; constructor; auto.
Qed.

Lemma rank_insights_unfold :
  forall insights top_n min_impact,
    rank_insights insights top_n min_impact
    = truncate top_n (sorted_desc (filter (keeps min_impact) insights)).
Proof. reflexivity. Qed.

Lemma truncate_prefix :
  forall top_n l, exists k : nat, truncate top_n l = firstn k l.
Proof.
  intros [ n | ] l; unfold truncate, slice_to.
  - destruct (n =? 0)%Z; [ exists (List.length l); symmetry; apply firstn_all | ].
    destruct (0 <=? n)%Z; eexists; reflexivity.
  - exists (List.length l). symmetry. apply firstn_all.
Qed.

Lemma truncate_idempotent :
  forall top_n l,
    (forall n, top_n = Some n -> (0 <= n)%Z) ->
    truncate top_n (truncate top_n l) = truncate top_n l.
Proof.
  intros [ n | ] l Hn; unfold truncate; [ | reflexivity ].
  specialize (Hn n eq_refl).
  destruct (n =? 0)%Z; [ reflexivity | ].
  unfold slice_to. destruct (Z.leb_spec 0 n) as [ _ | ? ]; [ | lia ].
  rewrite firstn_firstn. rewrite Nat.min_id. reflexivity.
Qed.

(** The result of a ranking is in ranked order and holds only records of at
    least the minimal impact. *)
Lemma rank_insights_ranked :
  forall insights top_n min_impact,
    ranked_order (rank_insights insights top_n min_impact) /\
    Forall (fun i => keeps min_impact i = true) (rank_insights insights top_n min_impact).
Proof.
  intros insights top_n min_impact. rewrite rank_insights_unfold.
  destruct (truncate_prefix top_n (sorted_desc (filter (keeps min_impact) insights)))
    as [k ->].
  split.
  - apply firstn_ranked, sorted_desc_ranked.
  - apply firstn_Forall, sorted_desc_Forall, filter_Forall_true.
Qed.

(** C7 (as amended). Ranking is idempotent for every list of records, every
    [min_impact] and every [top_n] that is [None] or not negative: ranking the
    output again with the same arguments returns it unchanged. *)
Theorem rank_insights_idempotent :
  forall (insights : list InsightRecord) (top_n : option Z) (min_impact : Q),
    (forall n, top_n = Some n -> (0 <= n)%Z) ->
    rank_insights (rank_insights insights top_n min_impact) top_n min_impact
    = rank_insights insights top_n min_impact.
Proof.
  intros insights top_n min_impact Hn.
  destruct (rank_insights_ranked insights top_n min_impact) as [Hr Hk].
  rewrite (rank_insights_unfold (rank_insights insights top_n min_impact)).
  rewrite (filter_fixes_Forall _ Hk).
  rewrite (sorted_desc_fixes_ranked Hr).
  rewrite rank_insights_unfold.
  apply truncate_idempotent, Hn.
Qed.

Lemma rank_insights_idempotent_witness :
  rank_insights (rank_insights sample_insights (Some 2%Z) 15) (Some 2%Z) 15
  = rank_insights sample_insights (Some 2%Z) 15.
Proof.
  apply rank_insights_idempotent.
  intros n H. injection H as <-. lia.
Defined.

Example rank_insights_sample :
  rank_insights sample_insights (Some 2%Z) 0
  = [ sample_insight "spend" 30; sample_insight "ctr" 20 ].
Proof. reflexivity. Qed.

(** C7 as stated fails: with [top_n = -1] every ranking drops the last record
    that is left, so a second ranking returns a shorter list. *)
Lemma rank_insights_negative_top_n_not_idempotent :
  rank_insights sample_insights (Some (-1)%Z) 0
    = [ sample_insight "spend" 30; sample_insight "ctr" 20 ] /\
  rank_insights (rank_insights sample_insights (Some (-1)%Z) 0) (Some (-1)%Z) 0
    = [ sample_insight "spend" 30 ] /\
  rank_insights (rank_insights sample_insights (Some (-1)%Z) 0) (Some (-1)%Z) 0
    <> rank_insights sample_insights (Some (-1)%Z) 0.
Proof.
  repeat split; try reflexivity. discriminate.
Qed.

(** C10. A [top_n] of 0 truncates nothing: the ranking is the whole filtered
    and sorted list, the same as with [top_n] unspecified; only a [top_n] that
    is neither [None] nor 0 slices the ranked list. *)
Theorem rank_insights_top_n_zero :
  forall (insights : list InsightRecord) (min_impact : Q),
    rank_insights insights (Some 0%Z) min_impact
      = sorted_desc (filter (fun i => Qle_bool min_impact (impact_score i)) insights) /\
    rank_insights insights (Some 0%Z) min_impact
      = rank_insights insights None min_impact /\
    (forall n : Z, n <> 0%Z ->
       rank_insights insights (Some n) min_impact
       = slice_to n (rank_insights insights None min_impact)).
Proof.
  intros insights min_impact. repeat split.
  intros n Hn. unfold rank_insights.
  destruct (Z.eqb_spec n 0) as [ E | _ ]; [ contradiction | reflexivity ].
Qed.

Lemma rank_insights_top_n_zero_witness :
  rank_insights sample_insights (Some 0%Z) 15 = rank_insights sample_insights None 15 /\
  rank_insights sample_insights (Some 1%Z) 15
  = slice_to 1 (rank_insights sample_insights None 15).
Proof.
  destruct (rank_insights_top_n_zero sample_insights 15) as [_ [Hzero Hslice]].
  split; [ exact Hzero | apply Hslice; discriminate ].
Defined.

Example rank_insights_zero_keeps_all :
  rank_insights sample_insights (Some 0%Z) 0
  = [ sample_insight "spend" 30; sample_insight "ctr" 20; sample_insight "clicks" 10 ].
Proof. reflexivity. Qed.

End Insights.

(** * The arithmetic of the insights on binary64 floats ([engine/insights.py])

    Python's [float] is the binary64 format: the functions below compute with
    the primitive floats, whose operations are the IEEE 754 ones, rounding to
    nearest with ties to even. *)

Module Binary64.

Local Open Scope float_scope.

Definition compute_delta (current previous : float) : float := current - previous.

Definition compute_delta_pct (current previous : float) : float :=
  if previous =? 0 then
    if current =? 0 then 0
    else if 0 <? current then 100 else -100
  else ((current - previous) / abs previous) * 100.

(** ** Definitions the properties are stated with *)

(** The sign of a number: 1, -1, and 0 for a zero (and for what is not a
    number). *)
Definition sign (x : float) : float :=
  if 0 <? x then 1 else if x <? 0 then -1 else 0.

(** ** Classes of floats *)

Lemma is_finite_cases :
  forall x : float,
    is_finite x = true ->
    (exists s, Prim2SF x = S754_zero s) \/ (exists s m e, Prim2SF x = S754_finite s m e).
Proof.
  intros x H. unfold is_finite, is_nan, is_infinity in H.
  rewrite !eqb_spec, abs_spec in H.
  destruct (Prim2SF x) as [ s | s | | s m e ] eqn:E.
  - left. eauto.
  - exfalso. destruct s; cbn in H; discriminate.
  - cbn in H. discriminate.
  - right. eauto.
Qed.

Lemma eqb_zero_cases :
  forall x : float, (x =? 0) = true <-> exists s, Prim2SF x = S754_zero s.
Proof.
  intro x. rewrite eqb_spec. change (Prim2SF 0) with (S754_zero false).
  destruct (Prim2SF x) as [ s | s | | s m e ]; cbn.
  - split; eauto.
  - destruct s; split; try discriminate; intros [? ?]; discriminate.
  - split; try discriminate; intros [? ?]; discriminate.
  - destruct s; split; try discriminate; intros [? ?]; discriminate.
Qed.

(** ** Percentage change *)

Lemma compute_delta_pct_same :
  forall x : float, is_finite x = true -> compute_delta_pct x x = 0.
Proof.
  intros x H. unfold compute_delta_pct.
  destruct (is_finite_cases x H) as [ [s E] | [s [m [e E]]] ].
  - assert (Hz : (x =? 0) = true) by (apply eqb_zero_cases; eauto).
    rewrite Hz. reflexivity.
  - assert (Hz : (x =? 0) = false).
    { destruct (x =? 0) eqn:Ez; [ | reflexivity ].
      apply eqb_zero_cases in Ez. destruct Ez as [s' Es]. congruence. }
    rewrite Hz. apply Prim2SF_inj.
    rewrite mul_spec, div_spec, sub_spec, abs_spec, E.
    unfold SF64sub, SFsub. rewrite Z.sub_diag. cbn [binary_normalize].
    cbn [SFabs]. unfold SF64div. cbn [SFdiv xorb]. reflexivity.
Qed.

Lemma compute_delta_pct_against_zero :
  forall x z : float,
    (z =? 0) = true -> (x =? 0) = false -> is_nan x = false ->
    compute_delta_pct x z = sign x * 100.
Proof.
  intros x z Hz Hx Hn. unfold compute_delta_pct, sign. rewrite Hz, Hx.
  unfold is_nan in Hn. rewrite !ltb_spec. rewrite !eqb_spec in *.
  change (Prim2SF 0) with (S754_zero false) in *.
  destruct (Prim2SF x) as [ s | s | | s m e ]; cbn in *; try discriminate;
    destruct s; reflexivity.
Qed.

(** C5 (as amended). On binary64 values: [compute_delta_pct x x] is 0 for every
    finite [x]; against a previous value that is zero the result is 0 when the
    current value is zero too, and the sign of the current value times 100
    when it is a number other than zero; and against a previous value other
    than zero it is [((current - previous) / |previous|) * 100], in the
    arithmetic of the floats. *)
Theorem compute_delta_pct_laws :
  (forall x : float, is_finite x = true -> compute_delta_pct x x = 0) /\
  (forall x z : float,
      (z =? 0) = true -> (x =? 0) = true -> compute_delta_pct x z = 0) /\
  (forall x z : float,
      (z =? 0) = true -> (x =? 0) = false -> is_nan x = false ->
      compute_delta_pct x z = sign x * 100) /\
  (forall current previous : float,
      (previous =? 0) = false ->
      compute_delta_pct current previous = ((current - previous) / abs previous) * 100).
Proof.
  split; [ exact compute_delta_pct_same | ].
  split; [ | split; [ exact compute_delta_pct_against_zero | ] ].
  - intros x z Hz Hx. unfold compute_delta_pct. rewrite Hz, Hx. reflexivity.
  - intros current previous Hp. unfold compute_delta_pct. rewrite Hp. reflexivity.
Qed.

(** The worked example of the specification: 300 clicks against 200, and the
    cases of a previous value of zero, of either sign. *)
Example delta_pct_clicks :
  compute_delta_pct 300 200 = 50 /\ compute_delta_pct 250 250 = 0 /\
  compute_delta_pct 250 0 = 100 /\ compute_delta_pct (-250) (-0) = -100 /\
  compute_delta_pct (-0) 0 = 0 /\ compute_delta_pct infinity 0 = 100.
Proof. repeat split. Qed.

(** C5 as stated fails: between two infinities the difference is not a number,
    and so is the result, which is then not 0; and what is not a number is
    not zero, so against zero it gives -100. *)
Lemma compute_delta_pct_not_a_number :
  compute_delta_pct infinity infinity = nan /\
  (compute_delta_pct infinity infinity =? 0) = false /\
  compute_delta_pct nan nan = nan /\
  compute_delta_pct nan 0 = -100.
Proof. repeat split. Qed.

End Binary64.

(** * More of the insight engine ([engine/insights.py]) *)

Module Extraction.

Import Polars Insights.

Local Open Scope Q_scope.

(** ** The summary of a ranking *)

(** [max(l, key=key)] and [min(l, key=key)] on a list that is not empty: the
    first of the records that reach the extreme key. *)
Fixpoint max_by (key : InsightRecord -> Q) (best : InsightRecord) (l : list InsightRecord)
    : InsightRecord :=
  match l with
  | [] => best
  | x :: l' => max_by key (if Qltb (key best) (key x) then x else best) l'
  end.

Fixpoint min_by (key : InsightRecord -> Q) (best : InsightRecord) (l : list InsightRecord)
    : InsightRecord :=
  match l with
  | [] => best
  | x :: l' => min_by key (if Qltb (key x) (key best) then x else best) l'
  end.

Definition is_up (i : InsightRecord) : bool := String.eqb (direction i) "up".
Definition is_down (i : InsightRecord) : bool := String.eqb (direction i) "down".

(** The summary dictionary: the two counts are absent from the summary of an
    empty list. *)
Record Summary : Type := mkSummary {
  total_insights : nat;
  total_gains : option nat;
  total_drops : option nat;
  top_mover : option InsightRecord;
  biggest_gain : option InsightRecord;
  biggest_drop : option InsightRecord
}.

Definition generate_insight_summary (insights : list InsightRecord) : Summary :=
  match insights with
  | [] => mkSummary 0 None None None None None
  | first :: _ =>
      let gains := filter is_up insights in
      let drops := filter is_down insights in
      mkSummary (List.length insights)
        (Some (List.length gains))
        (Some (List.length drops))
        (Some first)
        (match gains with
         | [] => None
         | g :: gains' => Some (max_by delta_pct g gains')
         end)
        (match drops with
         | [] => None
         | d :: drops' => Some (min_by delta_pct d drops')
         end)
  end.

(** ** Extraction of the records *)

(** A row of [joined_df.to_dicts()]: the cell of every column, under its name. *)
Definition Row : Type := list (string * Value).

Definition to_dicts (df : DataFrame) : list Row :=
  map (fun r => combine (columns df) r) (rows df).

(** [name in row]. *)
Definition row_has (name : string) (row : Row) : bool := mem name (map fst row).

(** [row.get(name)]: the cell, [None] for a name that is not a key. *)
Fixpoint row_get (name : string) (row : Row) : Value :=
  match row with
  | [] => Null
  | (n, v) :: rest => if String.eqb name n then v else row_get name rest
  end.

(** Python's truth of a cell: [None], a zero and the empty text are false. *)
Definition truthy (v : Value) : bool :=
  match v with
  | Null => false
  | IntValue z => negb (z =? 0)%Z
  | FloatValue f => negb (PrimFloat.eqb f 0%float)
  | StrValue s => negb (String.eqb s EmptyString)
  | DateValue _ => true
  end.

Section Extract.

(** Python's [float(v)] of a cell that is true, as the value the engine then
    computes with. *)
Variable float_of : Value -> Result Q.

(** [float(v or 0)]. *)
Definition float_or_zero (v : Value) : Result Q :=
  if truthy v then float_of v else Ok 0.

(** The loop over [enumerate(kpi_priority)] for one row, from index
    [priority_idx] on. *)
Fixpoint extract_metrics (dim_values : list (string * Value)) (row : Row)
    (total_metrics priority_idx : Z) (kpis : list string) : Result (list InsightRecord) :=
  match kpis with
  | [] => Ok []
  | metric :: rest =>
      let current_col := (metric ++ "_current")%string in
      let previous_col := (metric ++ "_previous")%string in
      if negb (row_has current_col row) || negb (row_has previous_col row)
      then extract_metrics dim_values row total_metrics (priority_idx + 1)%Z rest
      else
        current_val <- float_or_zero (row_get current_col row) ;;
        previous_val <- float_or_zero (row_get previous_col row) ;;
        insight <- make_insight dim_values metric priority_idx total_metrics
                                current_val previous_val ;;
        others <- extract_metrics dim_values row total_metrics (priority_idx + 1)%Z rest ;;
        Ok (insight :: others)
  end.

(** [{d: row.get(d) for d in dimensions}]: one entry for each name, at the
    place of its first occurrence. *)
Definition dim_values_of (dimensions : list string) (row : Row) : list (string * Value) :=
  map (fun d => (d, row_get d row)) (fold_left append_new dimensions []).

Fixpoint extract_rows (dimensions kpi_priority : list string) (rows : list Row)
    : Result (list InsightRecord) :=
  match rows with
  | [] => Ok []
  | row :: rest =>
      first <- extract_metrics (dim_values_of dimensions row) row
                 (Z.of_nat (List.length kpi_priority)) 0%Z kpi_priority ;;
      others <- extract_rows dimensions kpi_priority rest ;;
      Ok (first ++ others)
  end.

Definition extract_insights (joined_df : DataFrame) (dimensions kpi_priority : list string)
    : Result (list InsightRecord) :=
  extract_rows dimensions kpi_priority (to_dicts joined_df).

(** The library's joins and null filling behind [join_periods]. *)
Variable join_periods : DataFrame -> DataFrame -> list string -> Result DataFrame.

(** The result of [generate_insights]: the ranked records and their summary
    (the echo of the configuration is left out). *)
Definition generate_insights (current_df previous_df : DataFrame)
    (config : Config.InsightConfig) (top_n : Z)
    : Result (list InsightRecord * Summary) :=
  let dimensions := Config.primary_dims (Config.report config) in
  let kpi_priority := Config.kpi_priority (Config.report config) in
  joined <- join_periods current_df previous_df dimensions ;;
  insights <- extract_insights joined dimensions kpi_priority ;;
  let ranked := rank_insights insights (Some top_n) 0 in
  let summary := generate_insight_summary ranked in
  Ok (ranked, summary).

End Extract.

(** ** Definitions the properties are stated with *)

(** The record has that impact score. *)
Definition has_score (score : Q) (i : InsightRecord) : bool :=
  Qeq_bool (impact_score i) score.

(** Both period columns of a metric are in the row. *)
Definition has_both (row : Row) (name : string) : bool :=
  row_has (name ++ "_current") row && row_has (name ++ "_previous") row.

(** Every cell that the extraction reads in the row converts: for each KPI with
    both period columns in the row, [float(cell or 0)] returns for both. *)
Definition converts (float_of : Value -> Result Q) (kpi_priority : list string) (row : Row)
    : Prop :=
  forall name : string,
    In name kpi_priority -> has_both row name = true ->
    (exists c : Q, float_or_zero float_of (row_get (name ++ "_current") row) = Ok c) /\
    (exists p : Q, float_or_zero float_of (row_get (name ++ "_previous") row) = Ok p).

(** ** Sample data *)

(** A joined table: clicks of both periods, spend of the current period only. *)
Definition sample_joined : DataFrame :=
  [ ("campaign", Utf8 [ Some "Brand"; Some "Retargeting" ]);
    ("clicks_current", Int64 [ Some 300%Z; Some 10%Z ]);
    ("clicks_previous", Int64 [ Some 200%Z; None ]);
    ("spend_current", Int64 [ Some 5%Z; Some 6%Z ]) ]%string.

Definition sample_float_of (v : Value) : Result Q :=
  match v with
  | IntValue z => Ok (inject_Z z)
  | _ => Ok 0
  end.

(** A conversion that fails as Python's [float] does on a text that is not a
    number and on a date. *)
Definition strict_float_of (v : Value) : Result Q :=
  match v with
  | IntValue z => Ok (inject_Z z)
  | _ => Err TypeError
  end.

Definition sample_join (current_df previous_df : DataFrame) (dimensions : list string)
    : Result DataFrame :=
  Ok sample_joined.

Definition november_report_config : Config.InsightConfig :=
  Config.mkInsightConfig
    (Config.mkDatasetConfig "clicks" [])
    []
    (Config.mkReportConfig "date"
       (Config.mkComparisonConfig "2025-11-24" "2025-11-30" "2025-11-17" "2025-11-23")
       [ "campaign"%string ] [ "spend"%string; "clicks"%string ]).

(** ** Ranking *)

Lemma insert_desc_permutation :
  forall (x : InsightRecord) (l : list InsightRecord), Permutation (insert_desc x l) (x :: l).
Proof.
  intros x l. induction l as [ | y l IH ]; simpl.
  - apply Permutation_refl.
  - destruct (Qltb (impact_score x) (impact_score y)).
    + apply Permutation_trans with (y :: x :: l).
      * apply perm_skip, IH.
      * apply perm_swap.
    + apply Permutation_refl.
Qed.

Lemma sorted_desc_permutation :
  forall l : list InsightRecord, Permutation (sorted_desc l) l.
Proof.
  induction l as [ | x l IH ]; simpl.
  - apply Permutation_refl.
  - apply Permutation_trans with (x :: sorted_desc l).
    + apply insert_desc_permutation.
    + apply perm_skip, IH.
Qed.

Lemma firstn_incl : forall (A : Type) (n : nat) (l : list A) (a : A),
    In a (firstn n l) -> In a l.
Proof.
  intros A n l a H. rewrite <- (firstn_skipn n l). apply in_or_app. left. exact H.
Qed.

Lemma ranked_order_strong :
  forall l : list InsightRecord,
    ranked_order l -> StronglySorted (fun a b => impact_score b <= impact_score a) l.
Proof.
  intros l H. apply Sorted_StronglySorted; [ | exact H ].
  intros a b c Hab Hbc. apply Qle_trans with (impact_score b); assumption.
Qed.

Lemma rank_insights_members :
  forall (insights : list InsightRecord) (top_n : option Z) (min_impact : Q)
         (i : InsightRecord),
    In i (rank_insights insights top_n min_impact) ->
    In i insights /\ min_impact <= impact_score i.
Proof.
  intros insights top_n min_impact i Hi.
  destruct (rank_insights_ranked insights top_n min_impact) as [_ Hk].
  split.
  - rewrite rank_insights_unfold in Hi.
    destruct (truncate_prefix top_n (sorted_desc (filter (keeps min_impact) insights)))
      as [k Ek].
    rewrite Ek in Hi. apply firstn_incl in Hi.
    apply (Permutation_in _ (sorted_desc_permutation _)) in Hi.
    apply filter_In in Hi. apply Hi.
  - rewrite Forall_forall in Hk. specialize (Hk i Hi).
    unfold keeps in Hk. apply Qle_bool_iff. exact Hk.
Qed.

Lemma rank_insights_length :
  forall (insights : list InsightRecord) (top_n : option Z) (min_impact : Q),
    (List.length (rank_insights insights top_n min_impact) <= List.length insights)%nat.
Proof.
  intros insights top_n min_impact. rewrite rank_insights_unfold.
  destruct (truncate_prefix top_n (sorted_desc (filter (keeps min_impact) insights)))
    as [k Ek].
  rewrite Ek.
  apply Nat.le_trans with (List.length (sorted_desc (filter (keeps min_impact) insights))).
  - rewrite length_firstn. apply Nat.le_min_r.
  - rewrite (Permutation_length (sorted_desc_permutation _)). apply filter_length_le.
Qed.

Lemma rank_insights_length_top_n :
  forall (insights : list InsightRecord) (n : Z) (min_impact : Q),
    (0 < n)%Z ->
    (List.length (rank_insights insights (Some n) min_impact) <= Z.to_nat n)%nat.
Proof.
  intros insights n min_impact Hn. unfold rank_insights, slice_to.
  destruct (Z.eqb_spec n 0) as [ E | _ ]; [ lia | ].
  destruct (Z.leb_spec 0 n) as [ _ | H ]; [ | lia ].
  rewrite length_firstn. apply Nat.le_min_l.
Qed.

(** X4. A ranking is in descending order of impact score, every record before
    every record that follows it; it holds only records of the input that
    reach the minimal impact; it is no longer than the input, and no longer
    than a positive [top_n]. *)
Theorem rank_insights_sound :
  forall (insights : list InsightRecord) (top_n : option Z) (min_impact : Q),
    StronglySorted (fun a b => impact_score b <= impact_score a)
                   (rank_insights insights top_n min_impact) /\
    (forall i : InsightRecord,
        In i (rank_insights insights top_n min_impact) ->
        In i insights /\ min_impact <= impact_score i) /\
    (List.length (rank_insights insights top_n min_impact) <= List.length insights)%nat /\
    (forall n : Z, top_n = Some n -> (0 < n)%Z ->
       (List.length (rank_insights insights top_n min_impact) <= Z.to_nat n)%nat).
Proof.
  intros insights top_n min_impact. split; [ | split; [ | split ] ].
  - apply ranked_order_strong. apply rank_insights_ranked.
  - apply rank_insights_members.
  - apply rank_insights_length.
  - intros n -> Hn. apply rank_insights_length_top_n. exact Hn.
Qed.

(** X5. Without a truncation ([top_n] unspecified or 0) the ranking is a
    rearrangement of the records that reach the minimal impact: none is lost,
    none is added, none is repeated. *)
Theorem rank_insights_permutation :
  forall (insights : list InsightRecord) (min_impact : Q),
    Permutation (rank_insights insights None min_impact)
                (filter (fun i => Qle_bool min_impact (impact_score i)) insights) /\
    Permutation (rank_insights insights (Some 0%Z) min_impact)
                (filter (fun i => Qle_bool min_impact (impact_score i)) insights).
Proof.
  intros insights min_impact. split; apply sorted_desc_permutation.
Qed.

Lemma insert_desc_same_score :
  forall (score : Q) (x : InsightRecord) (l : list InsightRecord),
    filter (has_score score) (insert_desc x l)
    = if has_score score x then x :: filter (has_score score) l
      else filter (has_score score) l.
Proof.
  intros score x l. induction l as [ | y l IH ]; simpl.
  - reflexivity.
  - destruct (Qltb (impact_score x) (impact_score y)) eqn:L; simpl.
    + rewrite IH. apply Qltb_true in L.
      destruct (has_score score x) eqn:Ex; [ | reflexivity ].
      destruct (has_score score y) eqn:Ey; [ | reflexivity ].
      unfold has_score in *. apply Qeq_bool_eq in Ex, Ey. lra.
    + reflexivity.
Qed.

(** X6. The sort is stable: among the ranked records, those of any one impact
    score stand in the order they had in the input. *)
Theorem rank_insights_stable :
  forall (insights : list InsightRecord) (min_impact score : Q),
    filter (has_score score) (rank_insights insights None min_impact)
    = filter (has_score score)
             (filter (fun i => Qle_bool min_impact (impact_score i)) insights).
Proof.
  intros insights min_impact score. unfold rank_insights.
  induction (filter (fun i => Qle_bool min_impact (impact_score i)) insights)
    as [ | x l IH ]; simpl.
  - reflexivity.
  - rewrite insert_desc_same_score, IH. reflexivity.
Qed.

(** ** Summary *)




(** X8. The top mover of the summary of a ranking has the highest impact score of
    the ranking. *)
Theorem top_mover_of_ranking :
  forall (insights : list InsightRecord) (top_n : option Z) (min_impact : Q)
         (top : InsightRecord),
    top_mover (generate_insight_summary (rank_insights insights top_n min_impact)) = Some top ->
    forall i : InsightRecord,
      In i (rank_insights insights top_n min_impact) -> impact_score i <= impact_score top.
Proof.
  intros insights top_n min_impact top Htop i Hi.
  pose proof (ranked_order_strong (proj1 (rank_insights_ranked insights top_n min_impact)))
    as Hs.
  destruct (rank_insights insights top_n min_impact) as [ | first rest ]; [ contradiction | ].
  cbn in Htop. injection Htop as <-.
  destruct Hi as [ <- | Hi ]; [ apply Qle_refl | ].
  inversion Hs as [ | a l Hl Hall ]; subst.
  rewrite Forall_forall in Hall. apply Hall. exact Hi.
Qed.

Lemma top_mover_of_ranking_witness :
  top_mover (generate_insight_summary (rank_insights sample_insights (Some 2%Z) 15))
  = Some (sample_insight "spend" 30) /\
  impact_score (sample_insight "ctr" 20) <= impact_score (sample_insight "spend" 30).
Proof.
  split; [ reflexivity | ].
  apply (@top_mover_of_ranking sample_insights (Some 2%Z) 15 (sample_insight "spend" 30)
           eq_refl (sample_insight "ctr" 20)).
  right. left. reflexivity.
Defined.

(** ** Extraction *)

Section ExtractFacts.

Variable float_of : Value -> Result Q.

Lemma extract_metrics_names :
  forall (dim_values : list (string * Value)) (row : Row) (total : Z)
         (kpis : list string) (idx : Z) (out : list InsightRecord),
    extract_metrics float_of dim_values row total idx kpis = Ok out ->
    map metric out = filter (has_both row) kpis.
Proof.
  intros dims row total kpis. induction kpis as [ | m kpis IH ]; intros idx out H.
  - injection H as <-. reflexivity.
  - cbn [extract_metrics] in H. cbn [filter]. unfold has_both at 1.
    destruct (row_has (m ++ "_current") row); cbn [negb orb andb] in *;
      [ destruct (row_has (m ++ "_previous") row); cbn [negb] in * | ];
      try (apply (IH _ _ H)).
    destruct (float_or_zero float_of (row_get (m ++ "_current") row)) as [ c | e ];
      [ | discriminate ].
    destruct (float_or_zero float_of (row_get (m ++ "_previous") row)) as [ p | e ];
      [ | discriminate ].
    cbn [bind] in H.
    destruct (make_insight dims m idx total c p) as [ i | e ] eqn:Ei; [ | discriminate ].
    cbn [bind] in H.
    destruct (extract_metrics float_of dims row total (idx + 1) kpis) as [ others | e ] eqn:Eo;
      [ | discriminate ].
    cbn [bind] in H. injection H as <-. cbn [map]. f_equal.
    + unfold make_insight in Ei. destruct (compute_impact_score _ _ _ _); [ | discriminate ].
      cbn [bind] in Ei. injection Ei as <-. reflexivity.
    + apply (IH _ _ Eo).
Qed.

(** X10. The records come row by row and, within a row, in the order of the KPI
    priority; a row gives a record for exactly those KPIs for which it has both
    the current and the previous column, so there are no more records than rows
    times KPIs. *)
Theorem extract_insights_order :
  forall (joined_df : DataFrame) (dimensions kpi_priority : list string)
         (out : list InsightRecord),
    extract_insights float_of joined_df dimensions kpi_priority = Ok out ->
    map metric out
    = flat_map (fun row => filter (has_both row) kpi_priority) (to_dicts joined_df) /\
    (List.length out <= List.length (to_dicts joined_df) * List.length kpi_priority)%nat.
Proof.
  intros df dims kpis. unfold extract_insights.
  induction (to_dicts df) as [ | row rest IH ]; intros out H.
  - injection H as <-. split; [ reflexivity | simpl; lia ].
  - cbn [extract_rows] in H.
    destruct (extract_metrics float_of (dim_values_of dims row) row
                (Z.of_nat (List.length kpis)) 0 kpis) as [ first | e ] eqn:Ef;
      [ | discriminate ].
    cbn [bind] in H.
    destruct (extract_rows float_of dims kpis rest) as [ others | e ] eqn:Eo;
      [ | discriminate ].
    cbn [bind] in H. injection H as <-.
    destruct (IH _ eq_refl) as [Hn Hl].
    pose proof (extract_metrics_names _ _ _ _ _ Ef) as Hf.
    split.
    + rewrite map_app, Hf, Hn. reflexivity.
    + rewrite length_app. cbn [List.length].
      assert (List.length first <= List.length kpis)%nat.
      { rewrite <- (length_map metric first), Hf. apply filter_length_le. }
      lia.
Qed.

Lemma extract_metrics_returns :
  forall (dim_values : list (string * Value)) (row : Row) (total : Z)
         (kpis : list string) (idx : Z),
    (0 <= idx)%Z -> (idx + Z.of_nat (List.length kpis) = total)%Z ->
    (converts float_of kpis row <->
     exists out : list InsightRecord,
       extract_metrics float_of dim_values row total idx kpis = Ok out).
Proof.
  intros dims row total kpis. induction kpis as [ | m kpis IH ]; intros idx Hidx Hlen.
  - split; [ intros _; exists []; reflexivity | intros _ name [] ].
  - cbn [List.length] in Hlen.
    specialize (IH (idx + 1)%Z ltac:(lia) ltac:(lia)).
    cbn [extract_metrics].
    assert (Hb : negb (row_has (m ++ "_current") row) || negb (row_has (m ++ "_previous") row)
                 = negb (has_both row m)).
    { unfold has_both. destruct (row_has (m ++ "_current") row),
        (row_has (m ++ "_previous") row); reflexivity. }
    rewrite Hb. destruct (has_both row m) eqn:Em; cbn [negb].
    + split.
      * intro Hc. destruct (Hc m (or_introl eq_refl) Em) as [[c Ec] [p Ep]].
        rewrite Ec, Ep. cbn [bind]. unfold make_insight.
        rewrite (@compute_impact_score_ok _ _ idx total ltac:(lia)). cbn [bind].
        destruct (proj1 IH) as [others Eo].
        { intros name Hn. apply Hc. right. exact Hn. }
        rewrite Eo. cbn [bind]. eexists. reflexivity.
      * intros [out H] name [ <- | Hn ] Hboth.
        -- destruct (float_or_zero float_of (row_get (m ++ "_current") row)) as [ c | e ];
             [ | discriminate ].
           destruct (float_or_zero float_of (row_get (m ++ "_previous") row)) as [ p | e ];
             [ | discriminate ].
           split; eexists; reflexivity.
        -- apply (proj2 IH); [ | exact Hn | exact Hboth ].
           destruct (float_or_zero float_of (row_get (m ++ "_current") row)) as [ c | e ];
             [ | discriminate ].
           destruct (float_or_zero float_of (row_get (m ++ "_previous") row)) as [ p | e ];
             [ | discriminate ].
           cbn [bind] in H.
           destruct (make_insight dims m idx total c p) as [ i | e ]; [ | discriminate ].
           cbn [bind] in H.
           destruct (extract_metrics float_of dims row total (idx + 1) kpis) as [ others | e ];
             [ eexists; reflexivity | discriminate ].
    + rewrite <- IH. split.
      * intros Hc name Hn. apply Hc. right. exact Hn.
      * intros Hc name [ <- | Hn ] Hboth; [ congruence | apply (Hc name Hn Hboth) ].
Qed.

(** X11. Extraction returns exactly when every cell it reads converts to a
    float: for each row and each KPI that has both period columns in the row,
    the current and the previous cell, a null or a zero counting as 0.  The
    division by the number of KPIs is never a division by zero. *)
Theorem extract_insights_total :
  forall (joined_df : DataFrame) (dimensions kpi_priority : list string),
    (forall row : Row, In row (to_dicts joined_df) -> converts float_of kpi_priority row) <->
    exists out : list InsightRecord,
      extract_insights float_of joined_df dimensions kpi_priority = Ok out.
Proof.
  intros df dims kpis. unfold extract_insights.
  induction (to_dicts df) as [ | row rest IH ].
  - split; [ intros _; exists []; reflexivity | intros _ row [] ].
  - pose proof (@extract_metrics_returns (dim_values_of dims row) row
                  (Z.of_nat (List.length kpis)) kpis 0 ltac:(lia) ltac:(lia)) as Hrow.
    cbn [extract_rows]. split.
    + intro Hc.
      destruct (proj1 Hrow (Hc row (or_introl eq_refl))) as [first Ef].
      destruct (proj1 IH) as [others Eo].
      { intros r Hr. apply Hc. right. exact Hr. }
      rewrite Ef. cbn [bind]. rewrite Eo. cbn [bind]. eexists. reflexivity.
    + intros [out H].
      destruct (extract_metrics float_of (dim_values_of dims row) row
                  (Z.of_nat (List.length kpis)) 0 kpis) as [ first | e ] eqn:Ef;
        [ | discriminate ].
      cbn [bind] in H.
      destruct (extract_rows float_of dims kpis rest) as [ others | e ] eqn:Eo;
        [ | discriminate ].
      intros r [ <- | Hr ].
      * apply (proj2 Hrow). eexists. reflexivity.
      * apply (proj2 IH); [ eexists; reflexivity | exact Hr ].
Qed.

End ExtractFacts.

Lemma extract_insights_order_witness :
  exists out : list InsightRecord,
    extract_insights sample_float_of sample_joined [ "campaign"%string ]
                     [ "spend"%string; "clicks"%string ] = Ok out /\
    map metric out = [ "clicks"%string; "clicks"%string ].
Proof.
  destruct (extract_insights sample_float_of sample_joined [ "campaign"%string ]
              [ "spend"%string; "clicks"%string ]) as [ out | e ] eqn:E.
  - exists out. split; [ reflexivity | ].
    destruct (extract_insights_order _ _ _ _ E) as [H _]. rewrite H. reflexivity.
  - vm_compute in E. discriminate.
Defined.

Lemma extract_insights_total_witness :
  exists out : list InsightRecord,
    extract_insights strict_float_of sample_joined [ "campaign"%string ]
                     [ "spend"%string; "clicks"%string ] = Ok out.
Proof.
  apply (@extract_insights_total strict_float_of sample_joined [ "campaign"%string ]
           [ "spend"%string; "clicks"%string ]).
  intros row [ <- | [ <- | [] ] ] name [ <- | [ <- | [] ] ] Hb;
    vm_compute in Hb; try discriminate; split; eexists; reflexivity.
Defined.

(** A text where a number is read stops the extraction. *)
Example extract_insights_text_cell :
  extract_insights strict_float_of
    [ ("clicks_current", Utf8 [ Some "many" ]); ("clicks_previous", Int64 [ Some 2%Z ]) ]%string
    [] [ "clicks"%string ]
  = Err TypeError.
Proof. reflexivity. Qed.

(** ** The whole insight generation *)

(** X12. What [generate_insights] returns for a positive [top_n]: at most [top_n]
    records, each extracted from the joined table, in descending order of
    impact score, with a summary that counts them and names the first of them
    as the top mover. *)
Theorem generate_insights_result :
  forall (float_of : Value -> Result Q)
         (join_periods : DataFrame -> DataFrame -> list string -> Result DataFrame)
         (current_df previous_df : DataFrame) (config : Config.InsightConfig) (top_n : Z)
         (ranked : list InsightRecord) (summary : Summary),
    (0 < top_n)%Z ->
    generate_insights float_of join_periods current_df previous_df config top_n
    = Ok (ranked, summary) ->
    (List.length ranked <= Z.to_nat top_n)%nat /\
    StronglySorted (fun a b => impact_score b <= impact_score a) ranked /\
    total_insights summary = List.length ranked /\
    top_mover summary = hd_error ranked /\
    exists (joined : DataFrame) (insights : list InsightRecord),
      join_periods current_df previous_df (Config.primary_dims (Config.report config))
      = Ok joined /\
      extract_insights float_of joined (Config.primary_dims (Config.report config))
                       (Config.kpi_priority (Config.report config)) = Ok insights /\
      forall i : InsightRecord, In i ranked -> In i insights /\ 0 <= impact_score i.
Proof.
  intros float_of join_periods cur prev config top_n ranked summary Hn H.
  unfold generate_insights in H.
  destruct (join_periods cur prev (Config.primary_dims (Config.report config)))
    as [ joined | e ] eqn:Ej; [ | discriminate ].
  cbn [bind] in H.
  destruct (extract_insights float_of joined (Config.primary_dims (Config.report config))
              (Config.kpi_priority (Config.report config)))
    as [ insights | e ] eqn:Ee; [ | discriminate ].
  cbn [bind] in H.
  assert (Er : ranked = rank_insights insights (Some top_n) 0) by congruence.
  assert (Es : summary = generate_insight_summary (rank_insights insights (Some top_n) 0))
    by congruence.
  clear H. subst ranked summary.
  split; [ exact (rank_insights_length_top_n insights 0 Hn) | ].
  split; [ exact (ranked_order_strong (proj1 (rank_insights_ranked insights (Some top_n) 0))) | ].
  split; [ | split ].
  - destruct (rank_insights insights (Some top_n) 0); reflexivity.
  - destruct (rank_insights insights (Some top_n) 0); reflexivity.
  - exists joined, insights. split; [ reflexivity | ]. split; [ exact Ee | ].
    intros i Hi. exact (rank_insights_members insights (Some top_n) 0 i Hi).
Qed.

Lemma generate_insights_result_witness :
  exists (ranked : list InsightRecord) (summary : Summary),
    generate_insights sample_float_of sample_join [] [] november_report_config 1
    = Ok (ranked, summary) /\
    (List.length ranked <= 1)%nat /\
    total_insights summary = List.length ranked.
Proof.
  destruct (generate_insights sample_float_of sample_join [] [] november_report_config 1)
    as [ [ranked summary] | e ] eqn:E.
  - exists ranked, summary. split; [ reflexivity | ].
    destruct (@generate_insights_result _ _ _ _ _ 1%Z _ _ ltac:(lia) E) as [Hl [_ [Ht _]]].
    split; [ exact Hl | exact Ht ].
  - vm_compute in E. discriminate.
Defined.

End Extraction.

(** * More of the metrics ([engine/metrics.py]) *)

Module Derivation.

Import Polars Config Metrics.

(** ** Definitions the properties are stated with *)

(** Every character of a text is of a class. *)
Fixpoint all_chars (p : ascii -> bool) (s : string) : bool :=
  match s with
  | EmptyString => true
  | String c rest => p c && all_chars p rest
  end.

(** The first character of a text is of a class. *)
Definition starts_with (p : ascii -> bool) (s : string) : bool :=
  match s with
  | String c _ => p c
  | EmptyString => false
  end.

(** A text written as [spaces operand1 spaces operator spaces operand2 spaces]. *)
Definition formula_text (s0 operand1 s1 : string) (operator : ascii) (s2 operand2 s3 : string)
    : string :=
  (s0 ++ operand1 ++ s1 ++ String operator (s2 ++ operand2 ++ s3))%string.

(** An operand: a word of at least one character. *)
Definition is_operand (w : string) : bool :=
  all_chars is_word w && negb (String.eqb w EmptyString).


(** The operation [compute_derived_metric] applies for an operator. *)
(** A text of ASCII characters: there the classes of the pattern are the ones
    above, also for Python's patterns on [str]. *)
Definition is_ascii (c : ascii) : bool := (nat_of_ascii c <? 128)%nat.

Definition ascii_text (s : string) : bool := all_chars is_ascii s.

Definition operation (operator : ascii) : option float -> option float -> option float :=
  if Ascii.eqb operator "+" then lift2 PrimFloat.add
  else if Ascii.eqb operator "-" then lift2 PrimFloat.sub
  else if Ascii.eqb operator "*" then lift2 PrimFloat.mul
  else divide.

(** ** Formulas *)

Lemma word_not_space : forall c : ascii, is_word c = true -> is_space c = false.
Proof.
  intros [b0 b1 b2 b3 b4 b5 b6 b7].
  destruct b0, b1, b2, b3, b4, b5, b6, b7; cbv; intro H; first [ reflexivity | discriminate H ].
Qed.

Lemma operator_not_space : forall c : ascii, is_operator c = true -> is_space c = false.
Proof.
  intros [b0 b1 b2 b3 b4 b5 b6 b7].
  destruct b0, b1, b2, b3, b4, b5, b6, b7; cbv; intro H; first [ reflexivity | discriminate H ].
Qed.

Lemma operator_not_word : forall c : ascii, is_operator c = true -> is_word c = false.
Proof.
  intros [b0 b1 b2 b3 b4 b5 b6 b7].
  destruct b0, b1, b2, b3, b4, b5, b6, b7; cbv; intro H; first [ reflexivity | discriminate H ].
Qed.

Lemma space_not_word : forall c : ascii, is_space c = true -> is_word c = false.
Proof.
  intros c H. destruct (is_word c) eqn:E; [ | reflexivity ].
  apply word_not_space in E. congruence.
Qed.

Lemma skip_spaces_app :
  forall sp rest : string,
    all_chars is_space sp = true -> skip_spaces (sp ++ rest) = skip_spaces rest.
Proof.
  induction sp as [ | c sp IH ]; intros rest H; simpl in *.
  - reflexivity.
  - apply andb_true_iff in H. destruct H as [Hc Hsp]. rewrite Hc. apply IH, Hsp.
Qed.

Lemma skip_spaces_all :
  forall sp : string, all_chars is_space sp = true -> skip_spaces sp = EmptyString.
Proof.
  induction sp as [ | c sp IH ]; intro H; simpl in *.
  - reflexivity.
  - apply andb_true_iff in H. destruct H as [Hc Hsp]. rewrite Hc. apply IH, Hsp.
Qed.

Lemma skip_spaces_id :
  forall s : string, starts_with is_space s = false -> skip_spaces s = s.
Proof.
  intros [ | c s ] H; simpl in *; [ reflexivity | rewrite H; reflexivity ].
Qed.

Lemma take_word_app :
  forall w rest : string,
    all_chars is_word w = true -> starts_with is_word rest = false ->
    take_word (w ++ rest) = (w, rest).
Proof.
  induction w as [ | c w IH ]; intros rest Hw Hr; simpl in *.
  - destruct rest as [ | r rest ]; simpl in *; [ reflexivity | rewrite Hr; reflexivity ].
  - apply andb_true_iff in Hw. destruct Hw as [Hc Hw]. rewrite Hc.
    rewrite (IH rest Hw Hr). reflexivity.
Qed.

Lemma skip_spaces_split :
  forall s : string,
    exists sp : string, all_chars is_space sp = true /\ s = (sp ++ skip_spaces s)%string.
Proof.
  induction s as [ | c s IH ]; simpl.
  - exists EmptyString. split; reflexivity.
  - destruct (is_space c) eqn:E.
    + destruct IH as [sp [Hsp Hs]]. exists (String c sp). simpl. rewrite E, Hsp.
      split; [ reflexivity | f_equal; exact Hs ].
    + exists EmptyString. split; reflexivity.
Qed.

Lemma take_word_split :
  forall s w rest : string,
    take_word s = (w, rest) ->
    all_chars is_word w = true /\ s = (w ++ rest)%string.
Proof.
  induction s as [ | c s IH ]; intros w rest H; simpl in H.
  - injection H as <- <-. split; reflexivity.
  - destruct (is_word c) eqn:E.
    + destruct (take_word s) as [w' rest'] eqn:Et. injection H as <- <-.
      destruct (IH w' rest' eq_refl) as [Hw Hs]. simpl. rewrite E, Hw.
      split; [ reflexivity | f_equal; exact Hs ].
    + injection H as <- <-. split; reflexivity.
Qed.

Lemma starts_after_spaces :
  forall (sp : string) (c : ascii) (rest : string),
    all_chars is_space sp = true -> is_word c = false ->
    starts_with is_word (sp ++ String c rest) = false.
Proof.
  intros [ | s sp ] c rest Hsp Hc; simpl in *.
  - exact Hc.
  - apply andb_true_iff in Hsp. apply space_not_word. apply Hsp.
Qed.

Lemma starts_spaces_only :
  forall sp : string, all_chars is_space sp = true -> starts_with is_word sp = false.
Proof.
  intros [ | s sp ] Hsp; simpl in *.
  - reflexivity.
  - apply andb_true_iff in Hsp. apply space_not_word. apply Hsp.
Qed.

(** X13. Every text of the grammar parses, to its two operands and its operator,
    whatever the blanks around them. *)
Theorem parse_formula_accepts :
  forall (s0 operand1 s1 : string) (operator : ascii) (s2 operand2 s3 : string),
    all_chars is_space s0 = true -> all_chars is_space s1 = true ->
    all_chars is_space s2 = true -> all_chars is_space s3 = true ->
    is_operand operand1 = true -> is_operand operand2 = true ->
    is_operator operator = true ->
    parse_formula (formula_text s0 operand1 s1 operator s2 operand2 s3)
    = Ok (operand1, operator, operand2).
Proof.
  intros s0 a s1 op s2 b s3 H0 H1 H2 H3 Ha Hb Hop.
  unfold is_operand in *. apply andb_true_iff in Ha, Hb.
  destruct Ha as [Ha Hane], Hb as [Hb Hbne].
  destruct a as [ | a0 a ]; [ discriminate | ].
  destruct b as [ | b0 b ]; [ discriminate | ].
  unfold parse_formula, formula_text.
  rewrite (@skip_spaces_app s0 _ H0).
  rewrite skip_spaces_id.
  2:{ simpl in *. apply andb_true_iff in Ha. apply word_not_space. apply Ha. }
  rewrite (@take_word_app _ _ Ha).
  2:{ apply starts_after_spaces; [ exact H1 | apply operator_not_word, Hop ]. }
  rewrite (@skip_spaces_app s1 _ H1).
  rewrite skip_spaces_id by (simpl; apply operator_not_space, Hop).
  rewrite Hop.
  rewrite (@skip_spaces_app s2 _ H2).
  rewrite skip_spaces_id.
  2:{ simpl in *. apply andb_true_iff in Hb. apply word_not_space. apply Hb. }
  rewrite (@take_word_app _ _ Hb) by (apply starts_spaces_only, H3).
  rewrite (@skip_spaces_all s3 H3). reflexivity.
Qed.

Lemma parse_formula_accepts_witness :
  parse_formula "  clicks /impressions " = Ok ("clicks"%string, "/"%char, "impressions"%string).
Proof.
  apply (@parse_formula_accepts "  " "clicks" " " "/" "" "impressions" " "); reflexivity.
Defined.

(** X14. An ASCII text that parses is a text of the grammar: two operands of
    word characters around one of the four operators, with blanks only around
    them. *)
Theorem parse_formula_sound :
  forall (formula operand1 operand2 : string) (operator : ascii),
    ascii_text formula = true ->
    parse_formula formula = Ok (operand1, operator, operand2) ->
    is_operator operator = true /\
    is_operand operand1 = true /\ is_operand operand2 = true /\
    exists s0 s1 s2 s3 : string,
      all_chars is_space s0 = true /\ all_chars is_space s1 = true /\
      all_chars is_space s2 = true /\ all_chars is_space s3 = true /\
      formula = formula_text s0 operand1 s1 operator s2 operand2 s3.
Proof.
  intros f a b op _ H. unfold parse_formula in H.
  destruct (take_word (skip_spaces f)) as [a' r1] eqn:E1.
  destruct a' as [ | a0 a' ]; [ discriminate | ].
  destruct (skip_spaces r1) as [ | op' r2 ] eqn:E2; [ discriminate | ].
  destruct (is_operator op') eqn:Eop; [ | discriminate ].
  destruct (take_word (skip_spaces r2)) as [b' r3] eqn:E3.
  destruct b' as [ | b0 b' ]; [ discriminate | ].
  destruct (skip_spaces r3) as [ | c r4 ] eqn:E4; [ | discriminate ].
  injection H as <- <- <-.
  destruct (@take_word_split _ _ _ E1) as [Ha Hf].
  destruct (@take_word_split _ _ _ E3) as [Hb Hr2].
  destruct (skip_spaces_split f) as [s0 [H0 Ef]].
  destruct (skip_spaces_split r1) as [s1 [H1 Er1]].
  destruct (skip_spaces_split r2) as [s2 [H2 Er2]].
  destruct (skip_spaces_split r3) as [s3 [H3 Er3]].
  split; [ exact Eop | ].
  split; [ unfold is_operand; rewrite Ha; reflexivity | ].
  split; [ unfold is_operand; rewrite Hb; reflexivity | ].
  exists s0, s1, s2, s3. repeat split; try assumption.
  unfold formula_text.
  rewrite Ef at 1. rewrite Hf. f_equal. f_equal.
  rewrite Er1 at 1. rewrite E2. f_equal. f_equal.
  rewrite Er2 at 1. rewrite Hr2. f_equal. f_equal.
  rewrite Er3 at 1. rewrite E4. destruct s3; simpl; [ reflexivity | ].
  f_equal. clear. induction s3; simpl; congruence.
Qed.

Lemma parse_formula_sound_witness :
  is_operator "/" = true /\ is_operand "clicks" = true.
Proof.
  destruct (@parse_formula_sound "clicks / impressions" "clicks" "impressions" "/"
              eq_refl eq_refl)
    as [Hop [Ha _]].
  split; [ exact Hop | exact Ha ].
Defined.

(** ** Derived metrics *)

Lemma parse_formula_operator :
  forall (formula operand1 operand2 : string) (operator : ascii),
    parse_formula formula = Ok (operand1, operator, operand2) ->
    is_operator operator = true.
Proof.
  intros f a b op H. unfold parse_formula in H.
  destruct (take_word (skip_spaces f)) as [a' r1].
  destruct a'; [ discriminate | ].
  destruct (skip_spaces r1) as [ | op' r2 ]; [ discriminate | ].
  destruct (is_operator op') eqn:Eop; [ | discriminate ].
  destruct (take_word (skip_spaces r2)) as [b' r3].
  destruct b'; [ discriminate | ].
  destruct (skip_spaces r3); [ | discriminate ].
  injection H as _ <- _. exact Eop.
Qed.

Lemma parse_formula_error :
  forall (formula : string) (e : Exception),
    parse_formula formula = Err e -> e = FormulaError formula.
Proof.
  intros f e H. unfold parse_formula in H.
  destruct (take_word (skip_spaces f)) as [a' r1].
  destruct a'; [ congruence | ].
  destruct (skip_spaces r1) as [ | op' r2 ]; [ congruence | ].
  destruct (is_operator op'); [ | congruence ].
  destruct (take_word (skip_spaces r2)) as [b' r3].
  destruct b'; [ congruence | ].
  destruct (skip_spaces r3); congruence.
Qed.

Section DeriveFacts.

Variable str_to_float : string -> option float.

(** What [compute_derived_metric] does with a formula that parses. *)
Lemma compute_derived_metric_run :
  forall (df : DataFrame) (metric_name formula operand1 operand2 : string) (operator : ascii),
    parse_formula formula = Ok (operand1, operator, operand2) ->
    compute_derived_metric str_to_float df metric_name formula
    = if negb (has_column operand1 df) then Err (ColumnNotFound operand1)
      else if negb (has_column operand2 df) then Err (ColumnNotFound operand2)
      else with_columns df metric_name
             (binary (operation operator) (col_float64 str_to_float operand1)
                     (col_float64 str_to_float operand2)).
Proof.
  intros df name f a b op H. pose proof H as Hop. apply parse_formula_operator in Hop.
  unfold compute_derived_metric. rewrite H. cbn [bind].
  destruct (negb (has_column a df)); [ reflexivity | ].
  destruct (negb (has_column b df)); [ reflexivity | ].
  unfold operation, is_operator in *.
  destruct (Ascii.eqb op "+"); [ reflexivity | ].
  destruct (Ascii.eqb op "-"); [ reflexivity | ].
  destruct (Ascii.eqb op "*"); [ reflexivity | ].
  destruct (Ascii.eqb op "/"); [ reflexivity | discriminate ].
Qed.

Lemma cast_float64_error :
  forall (name : string) (s : Series) (e : Exception),
    cast_float64 str_to_float name s = Err e -> e = InvalidOperationError name.
Proof.
  intros name [ xs | xs | xs | xs ] e H; simpl in H; try discriminate.
  destruct (forallb _ xs); congruence.
Qed.

Lemma cast_float64_length :
  forall (name : string) (s : Series) (values : list (option float)),
    cast_float64 str_to_float name s = Ok values -> List.length values = series_len s.
Proof.
  intros name [ xs | xs | xs | xs ] values H; simpl in H; unfold series_len; simpl.
  - injection H as <-. rewrite !length_map. reflexivity.
  - injection H as <-. rewrite length_map. reflexivity.
  - destruct (forallb _ xs); [ | discriminate ].
    injection H as <-. rewrite !length_map. reflexivity.
  - injection H as <-. rewrite !length_map. reflexivity.
Qed.

(** A derived metric that is computed: the frame it gives. *)
Lemma compute_derived_metric_ok :
  forall (df result : DataFrame) (metric_name formula : string),
    compute_derived_metric str_to_float df metric_name formula = Ok result ->
    exists (operand1 operand2 : string) (operator : ascii) (s1 s2 : Series)
           (col1 col2 : list (option float)),
      parse_formula formula = Ok (operand1, operator, operand2) /\
      get_column operand1 df = Some s1 /\ get_column operand2 df = Some s2 /\
      cast_float64 str_to_float operand1 s1 = Ok col1 /\
      cast_float64 str_to_float operand2 s2 = Ok col2 /\
      result = with_column metric_name
                 (Float64 (elementwise (operation operator) col1 col2)) df.
Proof.
  intros df result name f H.
  destruct (parse_formula f) as [ [[a op] b] | e ] eqn:Ep.
  2:{ unfold compute_derived_metric in H. rewrite Ep in H. discriminate. }
  rewrite (@compute_derived_metric_run df name f a b op Ep) in H.
  destruct (has_column a df) eqn:Ha; [ | discriminate ].
  destruct (has_column b df) eqn:Hb; [ | discriminate ].
  cbn [negb] in H. unfold with_columns, binary, col_float64 in H.
  destruct (get_column a df) as [ s1 | ] eqn:E1; [ | discriminate ].
  destruct (cast_float64 str_to_float a s1) as [ c1 | e ] eqn:Ec1; [ | discriminate ].
  cbn [bind] in H.
  destruct (get_column b df) as [ s2 | ] eqn:E2; [ | discriminate ].
  destruct (cast_float64 str_to_float b s2) as [ c2 | e ] eqn:Ec2; [ | discriminate ].
  cbn [bind] in H. injection H as <-.
  exists a, b, op, s1, s2, c1, c2. repeat split; assumption.
Qed.

(** X15. Every failure of a derivation from an ASCII formula is one of three:
    the formula is not of the grammar ([FormulaError], with the formula), an
    operand is not a column ([ColumnNotFound], the first operand before the
    second), or an operand that is a column does not cast to floats.  An
    operator is never unsupported. *)
Theorem compute_derived_metric_failures :
  forall (df : DataFrame) (metric_name formula : string) (e : Exception),
    ascii_text formula = true ->
    compute_derived_metric str_to_float df metric_name formula = Err e ->
    (e = FormulaError formula /\ parse_formula formula = Err e) \/
    (exists operand1 operand2 operator,
        parse_formula formula = Ok (operand1, operator, operand2) /\
        ((e = ColumnNotFound operand1 /\ has_column operand1 df = false) \/
         (e = ColumnNotFound operand2 /\ has_column operand1 df = true
          /\ has_column operand2 df = false) \/
         (has_column operand1 df = true /\ has_column operand2 df = true /\
          (e = InvalidOperationError operand1 \/ e = InvalidOperationError operand2)))).
Proof.
  intros df name f e _ H.
  destruct (parse_formula f) as [ [[a op] b] | e' ] eqn:Ep.
  - right. exists a, b, op. split; [ reflexivity | ].
    rewrite (@compute_derived_metric_run df name f a b op Ep) in H.
    destruct (has_column a df) eqn:Ha; cbn [negb] in H.
    2:{ left. split; congruence. }
    destruct (has_column b df) eqn:Hb; cbn [negb] in H.
    2:{ right. left. repeat split; congruence. }
    right. right. split; [ reflexivity | split; [ reflexivity | ] ].
    unfold with_columns, binary, col_float64 in H.
    apply Metrics.has_column_get in Ha, Hb. destruct Ha as [s1 E1], Hb as [s2 E2].
    rewrite E1, E2 in H.
    destruct (cast_float64 str_to_float a s1) as [ c1 | e1 ] eqn:Ec1.
    + destruct (cast_float64 str_to_float b s2) as [ c2 | e2 ] eqn:Ec2; [ discriminate | ].
      cbn [bind] in H. right. apply cast_float64_error in Ec2. congruence.
    + cbn [bind] in H. left. apply cast_float64_error in Ec1. congruence.
  - left. unfold compute_derived_metric in H. rewrite Ep in H. cbn [bind] in H.
    injection H as <-. split; [ apply (@parse_formula_error _ _ Ep) | reflexivity ].
Qed.

Lemma columns_with_column :
  forall (name : string) (s : Series) (df : DataFrame),
    columns (with_column name s df)
    = if has_column name df then columns df else columns df ++ [name].
Proof.
  intros name s df. unfold has_column, columns, mem.
  induction df as [ | [n old] df IH ]; simpl.
  - reflexivity.
  - destruct (String.eqb name n); simpl; [ reflexivity | ].
    rewrite IH. destruct (existsb (String.eqb name) (map fst df)); reflexivity.
Qed.

Lemma get_column_with_column_other :
  forall (name other : string) (s : Series) (df : DataFrame),
    other <> name -> get_column other (with_column name s df) = get_column other df.
Proof.
  intros name other s df Hne. induction df as [ | [n old] df IH ]; simpl.
  - destruct (String.eqb_spec other name); [ contradiction | reflexivity ].
  - destruct (String.eqb_spec name n) as [ -> | Hn ]; simpl.
    + destruct (String.eqb_spec other n); [ contradiction | reflexivity ].
    + destruct (String.eqb other n); [ reflexivity | exact IH ].
Qed.

(** X16. A derivation changes nothing but the derived column: the names of the
    columns are kept in order, the new name being added last unless it is
    there already, every other column is the one it was, and the derived
    column is a float column. *)
Theorem compute_derived_metric_columns :
  forall (df result : DataFrame) (metric_name formula : string),
    compute_derived_metric str_to_float df metric_name formula = Ok result ->
    columns result
      = (if has_column metric_name df then columns df else columns df ++ [metric_name]) /\
    (forall other : string,
        other <> metric_name -> get_column other result = get_column other df) /\
    exists values : list (option float), get_column metric_name result = Some (Float64 values).
Proof.
  intros df result name f H.
  destruct (@compute_derived_metric_ok _ _ _ _ H)
    as [a [b [op [s1 [s2 [c1 [c2 [_ [_ [_ [_ [_ ->]]]]]]]]]]]].
  split; [ apply columns_with_column | ].
  split; [ intros other Hne; apply get_column_with_column_other, Hne | ].
  eexists. apply Metrics.get_column_with_column.
Qed.

Lemma uniform_get_column :
  forall (n : nat) (df : DataFrame) (name : string) (s : Series),
    uniform n df -> get_column name df = Some s -> series_len s = n.
Proof.
  intros n df name s Hu. induction Hu as [ | [c old] df Hc Hrest IH ]; simpl; intro H.
  - discriminate.
  - destruct (String.eqb name c); [ injection H as <-; exact Hc | apply IH, H ].
Qed.

Lemma uniform_with_column :
  forall (n : nat) (df : DataFrame) (name : string) (s : Series),
    uniform n df -> series_len s = n -> uniform n (with_column name s df).
Proof.
  intros n df name s Hu Hs. induction Hu as [ | [c old] df Hc Hrest IH ]; simpl.
  - repeat constructor. exact Hs.
  - destruct (String.eqb name c); constructor; assumption.
Qed.

Lemma elementwise_length :
  forall (op : option float -> option float -> option float) (xs ys : list (option float)),
    List.length (elementwise op xs ys) = Nat.min (List.length xs) (List.length ys).
Proof.
  intros op xs ys. unfold elementwise. rewrite length_map. apply length_combine.
Qed.

(** X17. A derivation keeps the frame uniform: when all columns have one height,
    the derived column has that height too. *)
Theorem compute_derived_metric_uniform :
  forall (n : nat) (df result : DataFrame) (metric_name formula : string),
    uniform n df ->
    compute_derived_metric str_to_float df metric_name formula = Ok result ->
    uniform n result.
Proof.
  intros n df result name f Hu H.
  destruct (@compute_derived_metric_ok _ _ _ _ H)
    as [a [b [op [s1 [s2 [c1 [c2 [_ [E1 [E2 [Ec1 [Ec2 ->]]]]]]]]]]]].
  apply uniform_with_column; [ exact Hu | ].
  unfold series_len. simpl. rewrite length_map, elementwise_length.
  rewrite (@cast_float64_length _ _ _ Ec1), (@cast_float64_length _ _ _ Ec2).
  rewrite (@uniform_get_column _ _ _ _ Hu E1), (@uniform_get_column _ _ _ _ Hu E2).
  apply Nat.min_id.
Qed.

Lemma fold_derive_error :
  forall (derived : list (string * string)) (e : Exception),
    fold_left
      (fun (acc : Result DataFrame) (entry : string * string) =>
         df <- acc ;; compute_derived_metric str_to_float df (fst entry) (snd entry))
      derived (Err e) = Err e.
Proof.
  induction derived as [ | entry derived IH ]; intro e; simpl; [ reflexivity | apply IH ].
Qed.

Lemma compute_all_derived_metrics_cons :
  forall (df : DataFrame) (metric_name formula : string) (rest : list (string * string)),
    compute_all_derived_metrics str_to_float df ((metric_name, formula) :: rest)
    = (derived <- compute_derived_metric str_to_float df metric_name formula ;;
       compute_all_derived_metrics str_to_float derived rest).
Proof.
  intros df name f rest. unfold compute_all_derived_metrics. simpl.
  destruct (compute_derived_metric str_to_float df name f) as [ d | e ]; simpl.
  - reflexivity.
  - apply fold_derive_error.
Qed.

(** X18. The derivations are chained in the order of the mapping, each on the
    frame the one before it gave, so a formula can use a metric derived before
    it; the first failure is the failure of the whole.  When all succeed, no
    column of the table is lost, every derived metric is a column of the
    result, and a uniform table stays uniform. *)
Theorem compute_all_derived_metrics_chain :
  forall (derived : list (string * string)) (df : DataFrame),
    compute_all_derived_metrics str_to_float df [] = Ok df /\
    (forall metric_name formula rest,
        derived = (metric_name, formula) :: rest ->
        compute_all_derived_metrics str_to_float df derived
        = (first <- compute_derived_metric str_to_float df metric_name formula ;;
           compute_all_derived_metrics str_to_float first rest)) /\
    (forall result : DataFrame,
        compute_all_derived_metrics str_to_float df derived = Ok result ->
        (forall c, has_column c df = true -> has_column c result = true) /\
        (forall entry, In entry derived -> has_column (fst entry) result = true) /\
        (forall n, uniform n df -> uniform n result)).
Proof.
  intros derived df. split; [ reflexivity | ]. split.
  - intros name f rest ->. apply compute_all_derived_metrics_cons.
  - revert df. induction derived as [ | [name f] rest IH ]; intros df result H.
    + injection H as <-. split; [ auto | split; [ intros entry [] | auto ] ].
    + rewrite compute_all_derived_metrics_cons in H.
      destruct (compute_derived_metric str_to_float df name f) as [ first | e ] eqn:E;
        [ | discriminate ].
      cbn [bind] in H. destruct (IH first result H) as [Hkeep [Hnew Hunif]].
      assert (Hstep : forall c, has_column c df = true -> has_column c first = true).
      { intros c Hc. unfold has_column in *.
        destruct (@compute_derived_metric_ok _ _ _ _ E)
          as [a [b [op [s1 [s2 [c1 [c2 [_ [_ [_ [_ [_ ->]]]]]]]]]]]].
        rewrite columns_with_column. fold (has_column name df).
        destruct (has_column name df); [ exact Hc | ].
        apply mem_In. apply in_or_app. left. apply mem_In. exact Hc. }
      assert (Hname : has_column name first = true).
      { destruct (@compute_derived_metric_ok _ _ _ _ E)
          as [a [b [op [s1 [s2 [c1 [c2 [_ [_ [_ [_ [_ ->]]]]]]]]]]]].
        apply Metrics.has_column_get. eexists. apply Metrics.get_column_with_column. }
      split; [ | split ].
      * intros c Hc. apply Hkeep, Hstep, Hc.
      * intros entry [ <- | Hin ]; [ apply Hkeep, Hname | apply Hnew, Hin ].
      * intros n Hu. apply Hunif.
        destruct (@compute_derived_metric_ok _ _ _ _ E)
          as [a [b [op [s1 [s2 [c1 [c2 [_ [E1 [E2 [Ec1 [Ec2 ->]]]]]]]]]]]].
        apply uniform_with_column; [ exact Hu | ].
        unfold series_len. simpl. rewrite length_map, elementwise_length.
        rewrite (@cast_float64_length _ _ _ Ec1), (@cast_float64_length _ _ _ Ec2).
        rewrite (@uniform_get_column _ _ _ _ Hu E1), (@uniform_get_column _ _ _ _ Hu E2).
        apply Nat.min_id.
Qed.

End DeriveFacts.

Lemma compute_derived_metric_failures_witness :
  (ColumnNotFound "revenue" = FormulaError "revenue / clicks" /\
   parse_formula "revenue / clicks" = Err (ColumnNotFound "revenue")) \/
  (exists operand1 operand2 operator,
      parse_formula "revenue / clicks" = Ok (operand1, operator, operand2) /\
      ((ColumnNotFound "revenue" = ColumnNotFound operand1
        /\ has_column operand1 clicks_table = false) \/
       (ColumnNotFound "revenue" = ColumnNotFound operand2
        /\ has_column operand1 clicks_table = true
        /\ has_column operand2 clicks_table = false) \/
       (has_column operand1 clicks_table = true /\ has_column operand2 clicks_table = true /\
        (ColumnNotFound "revenue" = InvalidOperationError operand1
         \/ ColumnNotFound "revenue" = InvalidOperationError operand2)))).
Proof.
  apply (@compute_derived_metric_failures no_text_floats clicks_table "roas"
           "revenue / clicks" (ColumnNotFound "revenue")).
  - reflexivity.
  - reflexivity.
Defined.

Lemma compute_derived_metric_columns_witness :
  exists result : DataFrame,
    compute_derived_metric no_text_floats clicks_table "ctr" "clicks / impressions" = Ok result /\
    columns result = [ "date"; "campaign"; "clicks"; "impressions"; "ctr" ]%string /\
    get_column "clicks" result = get_column "clicks" clicks_table.
Proof.
  destruct (compute_derived_metric no_text_floats clicks_table "ctr" "clicks / impressions")
    as [ result | e ] eqn:E.
  - exists result. split; [ reflexivity | ].
    destruct (@compute_derived_metric_columns no_text_floats clicks_table result "ctr"
                "clicks / impressions" E) as [Hc [Ho _]].
    split; [ rewrite Hc; reflexivity | apply Ho; discriminate ].
  - vm_compute in E. discriminate.
Defined.

Lemma compute_derived_metric_uniform_witness :
  exists result : DataFrame,
    compute_derived_metric no_text_floats clicks_table "ctr" "clicks / impressions" = Ok result /\
    uniform 3 result.
Proof.
  destruct (compute_derived_metric no_text_floats clicks_table "ctr" "clicks / impressions")
    as [ result | e ] eqn:E.
  - exists result. split; [ reflexivity | ].
    apply (@compute_derived_metric_uniform no_text_floats 3 clicks_table result "ctr"
             "clicks / impressions"); [ repeat constructor | exact E ].
  - vm_compute in E. discriminate.
Defined.

(** A formula on a metric derived before it. *)
Example derived_metrics_in_order :
  exists result : DataFrame,
    compute_all_derived_metrics no_text_floats clicks_table
      [ ("ctr", "clicks / impressions"); ("ctr_pct", "ctr * clicks") ]%string = Ok result /\
    columns result = [ "date"; "campaign"; "clicks"; "impressions"; "ctr"; "ctr_pct" ]%string.
Proof.
  eexists. split; reflexivity.
Qed.

(** ** Period splitting *)

Lemma count_true_length_filter :
  forall (A : Type) (f : A -> bool) (l : list A),
    count_true (map f l) = List.length (filter f l).
Proof.
  intros A f l. unfold count_true. induction l as [ | a l IH ]; simpl.
  - reflexivity.
  - destruct (f a); simpl; rewrite IH; reflexivity.
Qed.

Lemma filter_frame_uniform :
  forall (predicate : list (option bool)) (df : DataFrame),
    uniform (List.length predicate) df ->
    uniform (count_true (map keep predicate)) (filter_frame predicate df).
Proof.
  intros predicate df Hu. unfold filter_frame, uniform in *.
  apply Forall_map. eapply Forall_impl; [ | exact Hu ].
  intros [n s] Hs. cbn [snd] in *. unfold series_len in *.
  rewrite cells_filter_series. apply take_mask_length. rewrite length_map. exact Hs.
Qed.

Lemma filter_frame_height :
  forall (predicate : list (option bool)) (df : DataFrame),
    df <> [] ->
    uniform (List.length predicate) df ->
    height (filter_frame predicate df) = count_true (map keep predicate).
Proof.
  intros predicate df Hne Hu. pose proof (@filter_frame_uniform predicate df Hu) as Hf.
  destruct df as [ | [n s] df ]; [ contradiction | ].
  inversion Hf as [ | c l Hc _ ]; subst. exact Hc.
Qed.

Lemma count_true_le : forall mask : list bool, (count_true mask <= List.length mask)%nat.
Proof.
  intro mask. unfold count_true. apply filter_length_le.
Qed.

(** What a successful split is. *)
Lemma split_by_period_ok :
  forall (df current_df previous_df : DataFrame) (config : InsightConfig),
    split_by_period df config = Ok (current_df, previous_df) ->
    exists (dates : list (option Z)) (cs ce ps pe : Z),
      get_column (primary_date_col (report config)) df = Some (Date dates) /\
      strptime (current_start (comparison (report config))) = Ok cs /\
      strptime (current_end (comparison (report config))) = Ok ce /\
      strptime (previous_start (comparison (report config))) = Ok ps /\
      strptime (previous_end (comparison (report config))) = Ok pe /\
      current_df = filter_frame (map (between cs ce) dates) df /\
      previous_df = filter_frame (map (between ps pe) dates) df.
Proof.
  intros df cur prev config H. unfold split_by_period, filter_period in H.
  destruct (strptime (current_start _)) as [ cs | e ]; [ | discriminate ].
  destruct (strptime (current_end _)) as [ ce | e ]; [ | discriminate ].
  destruct (strptime (previous_start _)) as [ ps | e ]; [ | discriminate ].
  destruct (strptime (previous_end _)) as [ pe | e ]; [ | discriminate ].
  cbn [bind] in H.
  destruct (get_column (primary_date_col (report config)) df) as [ [ xs | xs | xs | ds ] | ];
    try discriminate.
  cbn [bind] in H. injection H as <- <-.
  exists ds, cs, ce, ps, pe. repeat split.
Qed.

(** X19. A split keeps the table a table: each sub-table has the columns of the
    table, in order, all of one height, and no more rows than the table. *)
Theorem split_by_period_uniform :
  forall (n : nat) (df current_df previous_df : DataFrame) (config : InsightConfig),
    uniform n df ->
    split_by_period df config = Ok (current_df, previous_df) ->
    columns current_df = columns df /\ columns previous_df = columns df /\
    uniform (height current_df) current_df /\ uniform (height previous_df) previous_df /\
    (height current_df <= n)%nat /\ (height previous_df <= n)%nat.
Proof.
  intros n df cur prev config Hu H.
  destruct (@split_by_period_ok _ _ _ _ H)
    as [ds [cs [ce [ps [pe [Hcol [_ [_ [_ [_ [-> ->]]]]]]]]]]].
  assert (Hlen : List.length ds = n).
  { pose proof (@uniform_get_column n df _ _ Hu Hcol) as Hs.
    unfold series_len in Hs. simpl in Hs. rewrite length_map in Hs. exact Hs. }
  assert (Hne : df <> []) by (intro E; subst; discriminate).
  assert (Hpred : forall s e, uniform (List.length (map (between s e) ds)) df).
  { intros s e. rewrite length_map, Hlen. exact Hu. }
  split; [ apply columns_filter_frame | ].
  split; [ apply columns_filter_frame | ].
  rewrite !(fun s e => @filter_frame_height _ df Hne (Hpred s e)).
  split; [ apply filter_frame_uniform, Hpred | ].
  split; [ apply filter_frame_uniform, Hpred | ].
  split.
  - apply Nat.le_trans with (1 := count_true_le _). rewrite !length_map. lia.
  - apply Nat.le_trans with (1 := count_true_le _). rewrite !length_map. lia.
Qed.

Lemma split_by_period_uniform_witness :
  exists current_df previous_df : DataFrame,
    split_by_period dated_table november_config = Ok (current_df, previous_df) /\
    uniform (height current_df) current_df /\ (height current_df <= 4)%nat.
Proof.
  destruct (split_by_period dated_table november_config) as [ [cur prev] | e ] eqn:E.
  - exists cur, prev. split; [ reflexivity | ].
    destruct (@split_by_period_uniform 4 dated_table cur prev november_config
                ltac:(repeat constructor) E) as [_ [_ [Hu [_ [Hh _]]]]].
    split; [ exact Hu | exact Hh ].
  - vm_compute in E. discriminate.
Defined.

Lemma disjoint_windows :
  forall (cs ce ps pe : Z) (d : option Z),
    (ce < ps \/ pe < cs)%Z ->
    keep (between cs ce d) = true -> keep (between ps pe d) = false.
Proof.
  intros cs ce ps pe d Hdis. rewrite !keep_between.
  destruct d as [ x | ]; simpl; [ | reflexivity ].
  intro H. apply andb_true_iff in H. rewrite !Z.leb_le in H.
  apply andb_false_iff. rewrite !Z.leb_gt. lia.
Qed.

(** X20. When the two windows do not overlap no row is in both sub-tables: the
    two sub-tables together have no more rows than the table. *)
Theorem split_by_period_disjoint :
  forall (n : nat) (df current_df previous_df : DataFrame) (config : InsightConfig)
         (cs ce ps pe : Z),
    uniform n df ->
    strptime (current_start (comparison (report config))) = Ok cs ->
    strptime (current_end (comparison (report config))) = Ok ce ->
    strptime (previous_start (comparison (report config))) = Ok ps ->
    strptime (previous_end (comparison (report config))) = Ok pe ->
    (ce < ps \/ pe < cs)%Z ->
    split_by_period df config = Ok (current_df, previous_df) ->
    (height current_df + height previous_df <= n)%nat.
Proof.
  intros n df cur prev config cs ce ps pe Hu Hcs Hce Hps Hpe Hdis H.
  destruct (@split_by_period_ok _ _ _ _ H)
    as [ds [cs' [ce' [ps' [pe' [Hcol [Hcs' [Hce' [Hps' [Hpe' [-> ->]]]]]]]]]]].
  assert (cs' = cs) by congruence. assert (ce' = ce) by congruence.
  assert (ps' = ps) by congruence. assert (pe' = pe) by congruence. subst.
  assert (Hlen : List.length ds = n).
  { pose proof (@uniform_get_column n df _ _ Hu Hcol) as Hs.
    unfold series_len in Hs. simpl in Hs. rewrite length_map in Hs. exact Hs. }
  assert (Hne : df <> []) by (intro E; subst; discriminate).
  assert (Hpred : forall s e, uniform (List.length (map (between s e) ds)) df).
  { intros s e. rewrite length_map, Hlen. exact Hu. }
  rewrite !(fun s e => @filter_frame_height _ df Hne (Hpred s e)).
  rewrite !map_map, !count_true_length_filter, <- Hlen.
  clear - Hdis. induction ds as [ | d ds IH ]; simpl.
  - lia.
  - destruct (keep (between cs ce d)) eqn:E1.
    + rewrite (@disjoint_windows cs ce ps pe d Hdis E1). simpl. lia.
    + destruct (keep (between ps pe d)); simpl; lia.
Qed.

Lemma split_by_period_disjoint_witness :
  exists current_df previous_df : DataFrame,
    split_by_period dated_table november_config = Ok (current_df, previous_df) /\
    (height current_df + height previous_df <= 4)%nat.
Proof.
  destruct (split_by_period dated_table november_config) as [ [cur prev] | e ] eqn:E.
  - exists cur, prev. split; [ reflexivity | ].
    apply (@split_by_period_disjoint 4 dated_table cur prev november_config
             20416 20422 20409 20415); try reflexivity.
    + repeat constructor.
    + right. lia.
    + exact E.
  - vm_compute in E. discriminate.
Defined.

Lemma strptime_error :
  forall (text : string) (e : Exception), strptime text = Err e -> e = DateParseError text.
Proof.
  intros text e H. unfold strptime in H.
  repeat match type of H with
         | context [match ?x with _ => _ end] => destruct x
         end; congruence.
Qed.

(** X21. On a table whose date column, when it has one, is a column of dates,
    every failure of a split is one of two: one of the four dates of the
    configuration is not a date ([DateParseError], with its text; the dates
    are read before the table is looked at), or the date column is not a
    column of the table. *)
Theorem split_by_period_failures :
  forall (df : DataFrame) (config : InsightConfig) (e : Exception),
    (forall s : Series,
        get_column (primary_date_col (report config)) df = Some s ->
        exists dates, s = Date dates) ->
    split_by_period df config = Err e ->
    (exists text : string,
        In text [ current_start (comparison (report config));
                  current_end (comparison (report config));
                  previous_start (comparison (report config));
                  previous_end (comparison (report config)) ] /\
        strptime text = Err e /\ e = DateParseError text) \/
    (e = ColumnNotFound (primary_date_col (report config)) /\
     has_column (primary_date_col (report config)) df = false /\
     forall text : string,
       In text [ current_start (comparison (report config));
                 current_end (comparison (report config));
                 previous_start (comparison (report config));
                 previous_end (comparison (report config)) ] ->
       exists day : Z, strptime text = Ok day).
Proof.
  intros df config e Hdate H. unfold split_by_period in H.
  destruct (strptime (current_start _)) as [ cs | e1 ] eqn:E1.
  2:{ left. eexists. split; [ left; reflexivity | ]. cbn [bind] in H.
      split; [ congruence | ]. injection H as <-. apply (@strptime_error _ _ E1). }
  destruct (strptime (current_end _)) as [ ce | e2 ] eqn:E2.
  2:{ left. eexists. split; [ right; left; reflexivity | ]. cbn [bind] in H.
      split; [ congruence | ]. injection H as <-. apply (@strptime_error _ _ E2). }
  destruct (strptime (previous_start _)) as [ ps | e3 ] eqn:E3.
  2:{ left. eexists. split; [ right; right; left; reflexivity | ]. cbn [bind] in H.
      split; [ congruence | ]. injection H as <-. apply (@strptime_error _ _ E3). }
  destruct (strptime (previous_end _)) as [ pe | e4 ] eqn:E4.
  2:{ left. eexists. split; [ right; right; right; left; reflexivity | ]. cbn [bind] in H.
      split; [ congruence | ]. injection H as <-. apply (@strptime_error _ _ E4). }
  right. cbn [bind] in H. unfold filter_period in H.
  destruct (get_column (primary_date_col (report config)) df) as [ s | ] eqn:Ec.
  - exfalso. destruct (Hdate s eq_refl) as [dates ->]. cbn [bind] in H. discriminate.
  - cbn [bind] in H. split; [ congruence | ]. split.
    + destruct (has_column (primary_date_col (report config)) df) eqn:Eh; [ | reflexivity ].
      apply Metrics.has_column_get in Eh. destruct Eh as [s Es]. congruence.
    + intros text [ <- | [ <- | [ <- | [ <- | [] ] ] ] ]; eauto.
Qed.

Lemma split_by_period_failures_witness :
  (exists text : string,
      In text [ "2025-11-24"; "2025-11-31"; "2025-11-17"; "2025-11-23" ]%string /\
      strptime text = Err (DateParseError "2025-11-31") /\
      DateParseError "2025-11-31" = DateParseError text) \/
  (DateParseError "2025-11-31" = ColumnNotFound "date" /\
   has_column "date" dated_table = false /\
   forall text : string,
     In text [ "2025-11-24"; "2025-11-31"; "2025-11-17"; "2025-11-23" ]%string ->
     exists day : Z, strptime text = Ok day).
Proof.
  apply (@split_by_period_failures dated_table
           (mkInsightConfig (mkDatasetConfig "clicks" []) []
              (mkReportConfig "date"
                 (mkComparisonConfig "2025-11-24" "2025-11-31" "2025-11-17" "2025-11-23")
                 [] []))
           (DateParseError "2025-11-31")).
  - intros s Hs. vm_compute in Hs. injection Hs as <-. eexists. reflexivity.
  - reflexivity.
Defined.

(** ** Aggregation *)

Lemma aggregate_columns :
  forall (agg : string -> Series -> Result Series) (df out : DataFrame) (names : list string),
    aggregate agg df names = Ok out -> columns out = names.
Proof.
  intros agg df out names. revert out.
  induction names as [ | m names IH ]; intros out H; simpl in H.
  - injection H as <-. reflexivity.
  - destruct (get_column m df) as [ s | ]; [ | discriminate ].
    destruct (agg m s) as [ summed | e ]; [ | discriminate ].
    cbn [bind] in H.
    destruct (aggregate agg df names) as [ others | e ]; [ | discriminate ].
    cbn [bind] in H. injection H as <-. unfold columns in *. simpl.
    rewrite (IH others eq_refl). reflexivity.
Qed.

Lemma first_duplicate_none_NoDup :
  forall names : list string, first_duplicate names = None -> NoDup names.
Proof.
  induction names as [ | n names IH ]; simpl; intro Hn.
  - constructor.
  - destruct (mem n names) eqn:E; [ discriminate | ].
    constructor; [ | apply IH, Hn ].
    intro Hin. apply mem_In in Hin. congruence.
Qed.

Lemma group_by_sums_columns :
  forall (df out : DataFrame) (by_ names : list string),
    group_by_sums df by_ names = Ok out ->
    columns out = by_ ++ names /\ NoDup (by_ ++ names).
Proof.
  intros df out by_ names H. unfold group_by_sums in H.
  destruct (first_duplicate (by_ ++ names)) eqn:Ed; [ discriminate | ].
  destruct (filter (fun d => negb (has_column d df)) by_); [ | discriminate ].
  destruct (aggregate _ df names) as [ sums | e ] eqn:Ea; [ | discriminate ].
  cbn [bind] in H. injection H as <-.
  split; [ | apply first_duplicate_none_NoDup, Ed ].
  unfold columns. rewrite map_app, map_map. cbn [fst]. rewrite map_id.
  f_equal. apply (@aggregate_columns _ _ _ _ Ea).
Qed.

(** X22. The columns of an aggregation are the dimensions and then the requested
    metrics that are columns of the table, in the order they were requested;
    no name is there twice. *)
Theorem aggregate_by_dimensions_columns :
  forall (df out : DataFrame) (dimensions metrics : list string),
    aggregate_by_dimensions df dimensions metrics = Ok out ->
    columns out = dimensions ++ filter (fun m => has_column m df) metrics /\
    NoDup (columns out).
Proof.
  intros df out dimensions metrics H. unfold aggregate_by_dimensions in H.
  destruct dimensions as [ | d dims ].
  - unfold select_sums in H.
    destruct (first_duplicate (filter (fun m => has_column m df) metrics)) eqn:Ed;
      [ discriminate | ].
    rewrite (@aggregate_columns _ _ _ _ H).
    split; [ reflexivity | apply first_duplicate_none_NoDup, Ed ].
  - destruct (filter (fun d => negb (has_column d df)) (d :: dims)); [ | discriminate ].
    destruct (filter (fun m => has_column m df) metrics) as [ | m ms ] eqn:Em;
      [ discriminate | ].
    destruct (@group_by_sums_columns _ _ _ _ H) as [Hc Hn].
    rewrite Hc. split; [ reflexivity | exact Hn ].
Qed.

Lemma aggregate_by_dimensions_columns_witness :
  exists out : DataFrame,
    aggregate_by_dimensions clicks_table [ "campaign" ]%string
      [ "clicks"; "revenue"; "impressions" ]%string
    = Ok out /\
    columns out = [ "campaign"; "clicks"; "impressions" ]%string.
Proof.
  destruct (aggregate_by_dimensions clicks_table [ "campaign" ]%string
              [ "clicks"; "revenue"; "impressions" ]%string) as [ out | e ] eqn:E.
  - exists out. split; [ reflexivity | ].
    destruct (@aggregate_by_dimensions_columns _ _ _ _ E) as [Hc _]. rewrite Hc. reflexivity.
  - vm_compute in E. discriminate.
Defined.

(** ** The metrics to aggregate *)

Lemma append_new_fold_prefix :
  forall keys names : list string,
    exists extra : list string,
      fold_left append_new keys names = names ++ extra /\
      NoDup extra /\
      forall k, In k extra -> In k keys /\ ~ In k names.
Proof.
  induction keys as [ | k keys IH ]; intro names; simpl.
  - exists []. rewrite app_nil_r.
    split; [ reflexivity | split; [ constructor | intros k [] ] ].
  - destruct (IH (append_new names k)) as [extra [He [Hnd Hin]]].
    unfold append_new in *. destruct (mem k names) eqn:E.
    + exists extra. split; [ exact He | ]. split; [ exact Hnd | ].
      intros x Hx. destruct (Hin x Hx) as [H1 H2]. split; [ right; exact H1 | exact H2 ].
    + exists (k :: extra). rewrite He, <- app_assoc. split; [ reflexivity | ].
      split.
      * constructor; [ | exact Hnd ].
        intro Hk. destruct (Hin k Hk) as [_ H2]. apply H2. apply in_or_app. right. left.
        reflexivity.
      * intros x [ <- | Hx ].
        -- split; [ left; reflexivity | ]. intro Hk. apply mem_In in Hk. congruence.
        -- destruct (Hin x Hx) as [H1 H2]. split; [ right; exact H1 | ].
           intro Hn. apply H2. apply in_or_app. left. exact Hn.
Qed.

(** X23. The metrics to aggregate are the metrics of the primary source, then the
    derived metrics, then the KPIs of the priority list that are not among
    them yet: every KPI is aggregated, nothing else is added, and no name is
    added twice.  Without the primary source in the configuration the lookup
    fails with a [KeyError]. *)
Theorem get_all_metrics_spec :
  forall config : InsightConfig,
    (forall all_metrics : list string,
        get_all_metrics config = Ok all_metrics ->
        exists (primary : SourceConfig) (extra : list string),
          lookup (primary_source (dataset config)) (sources (dataset config)) = Ok primary /\
          all_metrics = metrics primary ++ map fst (derived_metrics config) ++ extra /\
          NoDup extra /\
          (forall k, In k extra ->
             In k (kpi_priority (report config)) /\
             ~ In k (metrics primary ++ map fst (derived_metrics config))) /\
          (forall k, In k (kpi_priority (report config)) -> In k all_metrics)) /\
    (forall e : Exception,
        get_all_metrics config = Err e ->
        e = KeyError (primary_source (dataset config)) /\
        ~ In (primary_source (dataset config)) (map fst (sources (dataset config)))).
Proof.
  intro config. unfold get_all_metrics. split.
  - intros all_metrics H.
    destruct (lookup (primary_source (dataset config)) (sources (dataset config)))
      as [ primary | e ]; [ | discriminate ].
    cbn [bind] in H. injection H as <-.
    destruct (append_new_fold_prefix (kpi_priority (report config))
                (metrics primary ++ map fst (derived_metrics config)))
      as [extra [He [Hnd Hin]]].
    exists primary, extra. split; [ reflexivity | ].
    split; [ rewrite He, app_assoc; reflexivity | ].
    split; [ exact Hnd | ]. split; [ exact Hin | ].
    intros k Hk. apply Ingest.append_new_fold_In. right. exact Hk.
  - intros e H.
    assert (Hl : forall (A : Type) (key : string) (d : list (string * A)) (e' : Exception),
               lookup key d = Err e' -> e' = KeyError key /\ ~ In key (map fst d)).
    { intros A key d e'. induction d as [ | [k v] d IH ]; simpl; intro Hd.
      - injection Hd as <-. split; [ reflexivity | intros [] ].
      - destruct (String.eqb_spec key k) as [ -> | Hne ]; [ discriminate | ].
        destruct (IH Hd) as [He Hn]. split; [ exact He | ].
        intros [ Hk | Hk ]; [ congruence | contradiction ]. }
    destruct (lookup (primary_source (dataset config)) (sources (dataset config)))
      as [ primary | e' ] eqn:E; [ discriminate | ].
    cbn [bind] in H. injection H as <-. apply (Hl _ _ _ _ E).
Qed.

End Derivation.

(** * Loading and joining every source ([engine/ingest.py]) *)

Module Loading.

Import Polars Config Ingest.

(** [d[key] = value] on a dict: the value of a key that is there is replaced
    where it is, a new key goes to the end. *)
Fixpoint assign {A : Type} (key : string) (value : A) (d : list (string * A))
    : list (string * A) :=
  match d with
  | [] => [(key, value)]
  | (k, v) :: rest =>
      if String.eqb key k then (k, value) :: rest else (k, v) :: assign key value rest
  end.

(** [str.lower()] on the ASCII letters. *)
Definition lower_char (c : ascii) : ascii :=
  let n := nat_of_ascii c in
  if (65 <=? n)%nat && (n <=? 90)%nat then ascii_of_nat (n + 32) else c.

Fixpoint lower (s : string) : string :=
  match s with
  | EmptyString => EmptyString
  | String c rest => String (lower_char c) (lower rest)
  end.

(** [needle in s] on strings. *)
Fixpoint contains (needle s : string) : bool :=
  String.prefix needle s
  || match s with
     | EmptyString => false
     | String _ rest => contains needle rest
     end.

(** What [ingest_data] gives: the table, an exception of the loaders and the
    joiners, or its own [ValueError] for the date column. *)
Inductive Ingested : Type :=
| Table (df : DataFrame)
| Raised (e : Exception)
| DateColumnNotFound (date_col : string).

Section Pipeline.

Variable is_absolute : string -> bool.
Variable path_join : string -> string -> string.
Variable path_exists : string -> bool.
Variable readline : string -> string.
Variable read_csv : string -> ascii -> Result DataFrame.
Variable connectorx_read_sql : string -> string -> Result DataFrame.
Variable sqlalchemy_read_sql : string -> string -> Result DataFrame.
Variable get_connection_string : SourceConfig -> Result string.
Variable duckdb_execute : list (string * DataFrame) -> string -> Result DataFrame.
Variable left_join : DataFrame -> DataFrame -> list string -> Result DataFrame.

(** [load_source] over the file system and the database clients above. *)
Definition load (source_name : string) (source_config : SourceConfig) (base_path : string)
    : Result DataFrame :=
  load_source is_absolute path_join path_exists readline read_csv connectorx_read_sql
    sqlalchemy_read_sql get_connection_string source_name source_config base_path.

(** One turn of the loop of [load_all_sources]. *)
Definition load_step (base_path : string)
    (acc : Result (list (string * DataFrame))) (item : string * SourceConfig)
    : Result (list (string * DataFrame)) :=
  sources <- acc ;;
  df <- load (fst item) (snd item) base_path ;;
  Ok (assign (fst item) df sources).

Definition load_all_sources (config : InsightConfig) (base_path : string)
    : Result (list (string * DataFrame)) :=
  fold_left (load_step base_path) (Config.sources (dataset config)) (Ok []).

(** The table of a source is the one loaded for it, under its name. *)
Definition loaded_for (base_path : string) (item : string * SourceConfig)
    (entry : string * DataFrame) : Prop :=
  fst entry = fst item /\ load (fst item) (snd item) base_path = Ok (snd entry).

Definition ingest_data (config : InsightConfig) (base_path : string) : Ingested :=
  match load_all_sources config base_path with
  | Err e => Raised e
  | Ok sources =>
      match join_sources duckdb_execute left_join sources config with
      | Err e => Raised e
      | Ok df =>
          match lookup (primary_source (dataset config)) (Config.sources (dataset config)) with
          | Err e => Raised e
          | Ok primary_config =>
              if negb (mem (date_col primary_config) (columns df)) then
                let date_candidates :=
                  filter (fun c => contains "date" (lower c) || contains "dt_" (lower c))
                         (columns df) in
                match date_candidates with
                | _ :: _ => Table df
                | [] => DateColumnNotFound (date_col primary_config)
                end
              else Table df
          end
      end
  end.

End Pipeline.

(** ** Definitions the properties are stated with *)

(** A column name that can stand in for the date column. *)
Definition date_like (c : string) : bool :=
  contains "date" (lower c) || contains "dt_" (lower c).

(** One entry of the select list of the join. *)
Definition qualified (table_name col : string) : string :=
  (quoted table_name ++ "." ++ quoted col ++ " AS " ++ quoted col)%string.

(** The select list of the join: every column of the primary table, then the
    columns of the other tables that are neither primary columns nor join
    keys. *)
Definition select_list (primary_table : string) (primary_cols join_keys : list string)
    (sources : list (string * DataFrame)) : list string :=
  map (qualified primary_table) primary_cols
  ++ flat_map
       (fun t : string * DataFrame =>
          if String.eqb (fst t) primary_table then []
          else map (qualified (fst t))
                   (filter (fun col => negb (mem col primary_cols) && negb (mem col join_keys))
                           (columns (snd t))))
       sources.

(** The join keys that are columns of a table. *)
Definition shared_keys (join_keys : list string) (t : string * DataFrame) : list string :=
  filter (fun key => mem key (columns (snd t))) join_keys.

(** A table other than the primary one, with a join key among its columns. *)
Definition is_joined (primary_table : string) (join_keys : list string)
    (t : string * DataFrame) : bool :=
  negb (String.eqb (fst t) primary_table)
  && existsb (fun key => mem key (columns (snd t))) join_keys.

Definition join_clause (primary_table : string) (join_keys : list string)
    (t : string * DataFrame) : string :=
  (" LEFT JOIN " ++ quoted (fst t) ++ " ON "
   ++ join " AND "
        (map (fun key =>
                (quoted primary_table ++ "." ++ quoted key ++ " = "
                 ++ quoted (fst t) ++ "." ++ quoted key)%string)
             (shared_keys join_keys t)))%string.

(** The texts one after the other. *)
Definition concat_all (texts : list string) : string :=
  fold_right String.append EmptyString texts.

(** ** Sample data *)

Local Open Scope string_scope.

Definition clicks_source : SourceConfig :=
  mkSourceConfig "csv" (Some "data/clicks.csv") None None None "date"
    [ "campaign"; "geo" ] [ "impressions"; "clicks"; "spend" ] None.

Definition clicks_config : InsightConfig :=
  mkInsightConfig
    (mkDatasetConfig "clicks" [ ("clicks", clicks_source) ]) []
    (mkReportConfig "date"
       (mkComparisonConfig "2025-11-24" "2025-11-30" "2025-11-17" "2025-11-23")
       [ "campaign"; "geo" ] [ "clicks" ]).

Definition two_sources_config : InsightConfig :=
  mkInsightConfig
    (mkDatasetConfig "clicks"
       [ ("clicks", clicks_source); ("conversions", conversions_source) ]) []
    (mkReportConfig "date"
       (mkComparisonConfig "2025-11-24" "2025-11-30" "2025-11-17" "2025-11-23")
       [ "campaign"; "geo" ] [ "clicks" ]).

Definition clicks_frame : DataFrame :=
  [ ("date", Date [ Some 20409%Z ]); ("campaign", Utf8 [ Some "Retargeting" ]);
    ("clicks", Int64 [ Some 40%Z ]) ].

(** A table with none of the join keys among its columns. *)
Definition budget_frame : DataFrame :=
  [ ("channel", Utf8 [ Some "search" ]); ("budget", Int64 [ Some 900%Z ]) ].

(** A file system with the one file of the clicks, and no database. *)
Definition sample_read_csv (file_path : string) (delimiter : ascii) : Result DataFrame :=
  if String.eqb file_path "data/clicks.csv" then Ok clicks_frame else Err (NotFound file_path).

Definition no_database (connection_string query : string) : Result DataFrame :=
  Err (EngineError "unavailable").

Definition sample_load (source_name : string) (source_config : SourceConfig)
    (base_path : string) : Result DataFrame :=
  load (fun _ => false) (fun base p => base ++ "/" ++ p) (fun _ => true)
    (fun _ => "date,campaign,clicks") sample_read_csv no_database no_database
    (fun _ => Err (EngineError "unavailable")) source_name source_config base_path.

Definition no_engine (sources : list (string * DataFrame)) (sql : string) : Result DataFrame :=
  Err (EngineError "unavailable").

Definition no_join (left_ right_ : DataFrame) (on : list string) : Result DataFrame :=
  Err (EngineError "unavailable").

Local Close Scope string_scope.

(** ** Column names that stand in for the date column *)

Example date_like_names :
  date_like "Order_DATE" = true /\ date_like "DT_created" = true /\
  date_like "last_updated" = true /\ date_like "day" = false.
Proof. repeat split. Qed.

(** ** Dictionaries *)

Lemma lookup_absent :
  forall (A : Type) (key : string) (d : list (string * A)),
    ~ In key (map fst d) -> lookup key d = Err (KeyError key).
Proof.
  intros A key d. induction d as [ | [k v] d IH ]; simpl; intro H.
  - reflexivity.
  - destruct (String.eqb_spec key k) as [ -> | Hne ].
    + exfalso. apply H. left. reflexivity.
    + apply IH. intro Hin. apply H. right. exact Hin.
Qed.

Lemma lookup_error :
  forall (A : Type) (key : string) (d : list (string * A)) (e : Exception),
    lookup key d = Err e -> e = KeyError key.
Proof.
  intros A key d e. induction d as [ | [k v] d IH ]; simpl; intro H.
  - congruence.
  - destruct (String.eqb key k); [ discriminate | apply IH, H ].
Qed.

Lemma assign_fresh :
  forall (A : Type) (key : string) (value : A) (d : list (string * A)),
    ~ In key (map fst d) -> assign key value d = d ++ [(key, value)].
Proof.
  intros A key value d. induction d as [ | [k v] d IH ]; simpl; intro H.
  - reflexivity.
  - destruct (String.eqb_spec key k) as [ -> | Hne ].
    + exfalso. apply H. left. reflexivity.
    + rewrite IH; [ reflexivity | ]. intro Hin. apply H. right. exact Hin.
Qed.

(** ** Loading every source *)

Section PipelineFacts.

Variable is_absolute : string -> bool.
Variable path_join : string -> string -> string.
Variable path_exists : string -> bool.
Variable readline : string -> string.
Variable read_csv : string -> ascii -> Result DataFrame.
Variable connectorx_read_sql : string -> string -> Result DataFrame.
Variable sqlalchemy_read_sql : string -> string -> Result DataFrame.
Variable get_connection_string : SourceConfig -> Result string.
Variable duckdb_execute : list (string * DataFrame) -> string -> Result DataFrame.
Variable left_join : DataFrame -> DataFrame -> list string -> Result DataFrame.

Local Abbreviation load_ :=
  (load is_absolute path_join path_exists readline read_csv connectorx_read_sql
     sqlalchemy_read_sql get_connection_string).
Local Abbreviation load_all_sources_ :=
  (load_all_sources is_absolute path_join path_exists readline read_csv connectorx_read_sql
     sqlalchemy_read_sql get_connection_string).
Local Abbreviation ingest_data_ :=
  (ingest_data is_absolute path_join path_exists readline read_csv connectorx_read_sql
     sqlalchemy_read_sql get_connection_string duckdb_execute left_join).

Local Abbreviation load_step_ :=
  (load_step is_absolute path_join path_exists readline read_csv connectorx_read_sql
     sqlalchemy_read_sql get_connection_string).
Local Abbreviation loaded_for_ :=
  (loaded_for is_absolute path_join path_exists readline read_csv connectorx_read_sql
     sqlalchemy_read_sql get_connection_string).

Lemma load_step_error :
  forall (base_path : string) (items : list (string * SourceConfig)) (e : Exception),
    fold_left (load_step_ base_path) items (Err e) = Err e.
Proof.
  intros base_path items e. induction items as [ | item items IH ]; simpl; auto.
Qed.

Lemma load_fold_ok :
  forall (base_path : string) (items : list (string * SourceConfig))
         (acc out : list (string * DataFrame)),
    NoDup (map fst items) ->
    (forall k, In k (map fst items) -> ~ In k (map fst acc)) ->
    (fold_left (load_step_ base_path) items (Ok acc) = Ok out <->
     exists loaded, out = acc ++ loaded /\ Forall2 (loaded_for_ base_path) items loaded).
Proof.
  intros base_path items. induction items as [ | [name cfg] items IH ]; intros acc out Hnd Hfresh.
  - simpl. split.
    + intro H. exists []. rewrite app_nil_r. split; [ congruence | constructor ].
    + intros [loaded [-> HF]]. inversion HF. rewrite app_nil_r. reflexivity.
  - simpl in Hnd. inversion Hnd as [ | k ks Hk Hnd' ]; subst.
    cbn [fold_left]. unfold load_step at 2. cbn [bind fst snd].
    destruct (load_ name cfg base_path) as [ df | e ] eqn:El; cbn [bind].
    + rewrite (@assign_fresh _ name df acc (Hfresh name (or_introl eq_refl))).
      rewrite (IH (acc ++ [(name, df)]) out Hnd').
      * split.
        -- intros [loaded [-> HF]]. exists ((name, df) :: loaded).
           rewrite <- app_assoc. split; [ reflexivity | ].
           constructor; [ split; [ reflexivity | exact El ] | exact HF ].
        -- intros [loaded [-> HF]]. inversion HF as [ | item entry items' loaded' [Hn Hl] HF' ]; subst.
           destruct entry as [n d]. cbn [fst snd] in Hn, Hl. subst n.
           assert (d = df) by congruence. subst d.
           exists loaded'. rewrite <- app_assoc. split; [ reflexivity | exact HF' ].
      * intros k Hin Hacc. rewrite map_app, in_app_iff in Hacc. simpl in Hacc.
        destruct Hacc as [ Hacc | [ <- | [] ] ].
        -- apply (Hfresh k (or_intror Hin) Hacc).
        -- apply Hk, Hin.
    + rewrite load_step_error. split; [ discriminate | ].
      intros [loaded [_ HF]]. inversion HF as [ | item entry items' loaded' [_ Hl] _ ]; subst.
      cbn [fst snd] in Hl. congruence.
Qed.

Lemma load_fold_error :
  forall (base_path : string) (items : list (string * SourceConfig))
         (acc : list (string * DataFrame)) (e : Exception),
    fold_left (load_step_ base_path) items (Ok acc) = Err e ->
    exists before item after,
      items = before ++ item :: after /\
      load_ (fst item) (snd item) base_path = Err e /\
      Forall (fun i => exists df, load_ (fst i) (snd i) base_path = Ok df) before.
Proof.
  intros base_path items. induction items as [ | item items IH ]; intros acc e H.
  - discriminate.
  - cbn [fold_left] in H. unfold load_step at 2 in H. cbn [bind] in H.
    destruct (load_ (fst item) (snd item) base_path) as [ df | e' ] eqn:El; cbn [bind] in H.
    + destruct (IH _ _ H) as [before [it [after [-> [He HF]]]]].
      exists (item :: before), it, after. split; [ reflexivity | ].
      split; [ exact He | ]. constructor; [ exists df; exact El | exact HF ].
    + rewrite load_step_error in H. injection H as <-.
      exists [], item, items. split; [ reflexivity | ]. split; [ exact El | constructor ].
Qed.

(** X24. Loading every source gives one table for each source of the configuration,
    under the name of the source and in the order of the configuration; it
    succeeds exactly when every source loads.  When it fails, the exception
    is the one of the first source that does not load. *)
Theorem load_all_sources_spec :
  forall (config : InsightConfig) (base_path : string),
    NoDup (map fst (Config.sources (dataset config))) ->
    (forall sources : list (string * DataFrame),
        load_all_sources_ config base_path = Ok sources <->
        Forall2 (loaded_for_ base_path) (Config.sources (dataset config)) sources) /\
    (forall e : Exception,
        load_all_sources_ config base_path = Err e ->
        exists before item after,
          Config.sources (dataset config) = before ++ item :: after /\
          load_ (fst item) (snd item) base_path = Err e /\
          Forall (fun i => exists df, load_ (fst i) (snd i) base_path = Ok df) before).
Proof.
  intros config base_path Hnd. split.
  - intro sources.
    unfold load_all_sources.
    rewrite (@load_fold_ok base_path (Config.sources (dataset config)) [] sources Hnd
               (fun k _ H => H)).
    split.
    + intros [loaded [-> HF]]. exact HF.
    + intro HF. exists sources. split; [ reflexivity | exact HF ].
  - intros e H. apply (@load_fold_error base_path _ [] e). exact H.
Qed.

Lemma filter_nonempty :
  forall (A : Type) (f : A -> bool) (l : list A),
    filter f l <> [] <-> exists a, In a l /\ f a = true.
Proof.
  intros A f l. split.
  - intro H. destruct (filter f l) as [ | a rest ] eqn:E; [ contradiction | ].
    exists a. apply filter_In. rewrite E. left. reflexivity.
  - intros [a Ha] E. apply filter_In in Ha. rewrite E in Ha. exact Ha.
Qed.

(** X25. Ingestion succeeds exactly when every source loads, the join succeeds, the
    primary source is in the configuration, and the joined table has the date
    column of the primary source or, failing that, any column whose name
    holds [date] or [dt_], whatever the case of its letters.  The table it
    returns is the joined table as it is: the column that stands in for the
    date column is looked for, and neither selected nor renamed. *)
Theorem ingest_data_spec :
  forall (config : InsightConfig) (base_path : string) (df : DataFrame),
    ingest_data_ config base_path = Table df <->
    exists (sources : list (string * DataFrame)) (primary_config : SourceConfig),
      load_all_sources_ config base_path = Ok sources /\
      join_sources duckdb_execute left_join sources config = Ok df /\
      lookup (primary_source (dataset config)) (Config.sources (dataset config))
      = Ok primary_config /\
      (In (date_col primary_config) (columns df) \/
       exists c : string, In c (columns df) /\ date_like c = true).
Proof.
  intros config base_path df. unfold ingest_data.
  destruct (load_all_sources_ config base_path) as [ sources | e ].
  2:{ split; [ discriminate | intros [s [p [H _]]]; discriminate ]. }
  destruct (join_sources duckdb_execute left_join sources config) as [ joined | e ] eqn:Ej.
  2:{ split; [ discriminate | ]. intros [s [p [H [H' _]]]].
      injection H as <-. congruence. }
  destruct (lookup (primary_source (dataset config)) (Config.sources (dataset config)))
    as [ primary_config | e ] eqn:Ep.
  2:{ split; [ discriminate | ]. intros [s [p [_ [_ [H _]]]]]. discriminate. }
  cbv zeta. fold date_like.
  destruct (mem (date_col primary_config) (columns joined)) eqn:Em; cbn [negb].
  - split.
    + intro H. injection H as <-. exists sources, primary_config.
      repeat split; auto. left. apply mem_In, Em.
    + intros [s [p [H [H' _]]]]. injection H as <-. congruence.
  - destruct (filter date_like (columns joined)) as [ | c cs ] eqn:Ef.
    + split; [ discriminate | ].
      intros [s [p [H [H' [Hp Hd]]]]]. injection H as <-.
      assert (joined = df) by congruence. subst joined.
      assert (p = primary_config) by congruence. subst p.
      destruct Hd as [ Hd | [c [Hc Hl]] ].
      * apply mem_In in Hd. congruence.
      * assert (Hin : In c (filter date_like (columns df))) by (apply filter_In; auto).
        rewrite Ef in Hin. destruct Hin.
    + split.
      * intro H. injection H as <-. exists sources, primary_config.
        repeat split; auto. right. exists c.
        apply filter_In. rewrite Ef. left. reflexivity.
      * intros [s [p [H [H' _]]]]. injection H as <-. congruence.
Qed.

(** X26. With one source in the configuration, which is the primary source,
    ingestion returns the table loaded for that source, as long as it has the
    date column of the source: nothing is joined, whatever the engines. *)
Theorem ingest_data_single_source :
  forall (config : InsightConfig) (base_path source_name : string)
         (source_config : SourceConfig) (df : DataFrame),
    Config.sources (dataset config) = [(source_name, source_config)] ->
    primary_source (dataset config) = source_name ->
    load_ source_name source_config base_path = Ok df ->
    In (date_col source_config) (columns df) ->
    ingest_data_ config base_path = Table df.
Proof.
  intros config base_path source_name source_config df Hs Hp Hl Hd.
  unfold ingest_data, load_all_sources, load_step. rewrite Hs, Hp.
  cbn [fold_left bind fst snd]. rewrite Hl. cbn [bind assign].
  unfold join_sources, join_sources_duckdb. cbn [try_except].
  cbn [lookup]. rewrite String.eqb_refl.
  apply mem_In in Hd. rewrite Hd. reflexivity.
Qed.

End PipelineFacts.

Lemma load_all_sources_spec_witness :
  load_all_sources (fun _ => false) (fun base p => (base ++ "/" ++ p)%string) (fun _ => true)
    (fun _ => "date,campaign,clicks"%string) sample_read_csv no_database no_database
    (fun _ => Err (EngineError "unavailable")) clicks_config EmptyString
  = Ok [ ("clicks"%string, clicks_frame) ].
Proof.
  apply (@load_all_sources_spec (fun _ => false) (fun base p => (base ++ "/" ++ p)%string)
           (fun _ => true) (fun _ => "date,campaign,clicks"%string) sample_read_csv
           no_database no_database (fun _ => Err (EngineError "unavailable")) clicks_config EmptyString).
  - cbn. repeat constructor. intros [].
  - repeat constructor.
Defined.

Lemma ingest_data_single_source_witness :
  ingest_data (fun _ => false) (fun base p => (base ++ "/" ++ p)%string) (fun _ => true)
    (fun _ => "date,campaign,clicks"%string) sample_read_csv no_database no_database
    (fun _ => Err (EngineError "unavailable")) no_engine no_join clicks_config EmptyString
  = Table clicks_frame.
Proof.
  apply (@ingest_data_single_source (fun _ => false)
           (fun base p => (base ++ "/" ++ p)%string) (fun _ => true)
           (fun _ => "date,campaign,clicks"%string) sample_read_csv no_database no_database
           (fun _ => Err (EngineError "unavailable")) no_engine no_join clicks_config EmptyString
           "clicks"%string clicks_source clicks_frame).
  - reflexivity.
  - reflexivity.
  - reflexivity.
  - cbn. auto.
Defined.

(** ** Joining the sources *)

(** X27. Without the primary source among the tables, joining several tables, or
    none, fails with a [KeyError] for the primary source, whatever the
    engines: the first strategy fails on the lookup, and so does the second. *)
Theorem join_sources_missing_primary :
  forall (duckdb_execute : list (string * DataFrame) -> string -> Result DataFrame)
         (left_join : DataFrame -> DataFrame -> list string -> Result DataFrame)
         (sources : list (string * DataFrame)) (config : InsightConfig),
    List.length sources <> 1%nat ->
    ~ In (primary_source (dataset config)) (map fst sources) ->
    join_sources duckdb_execute left_join sources config
    = Err (KeyError (primary_source (dataset config))).
Proof.
  intros duckdb_execute left_join sources config Hlen Hin.
  pose proof (@lookup_absent _ _ sources Hin) as Hl.
  assert (Hd : exists e, join_sources_duckdb duckdb_execute sources config = Err e).
  { assert (Hq : exists e, join_sql sources config = Err e).
    { unfold join_sql.
      destruct (lookup (primary_source (dataset config)) (Config.sources (dataset config)))
        as [ primary_config | e ]; cbn [bind]; [ | eauto ].
      rewrite Hl. cbn [bind]. eauto. }
    destruct Hq as [e Hq]. exists e. unfold join_sources_duckdb.
    destruct sources as [ | [n d] [ | t rest ] ];
      [ | exfalso; apply Hlen; reflexivity | ]; rewrite Hq; reflexivity. }
  destruct Hd as [e Hd]. unfold join_sources. rewrite Hd. cbn [try_except].
  unfold join_sources_polars.
  destruct sources as [ | [n d] [ | t rest ] ];
    [ | exfalso; apply Hlen; reflexivity | ]; rewrite Hl; reflexivity.
Qed.

Lemma join_sources_missing_primary_witness :
  join_sources no_engine no_join
    [ ("conversions"%string, budget_frame); ("budget"%string, budget_frame) ] clicks_config
  = Err (KeyError "clicks").
Proof.
  apply (@join_sources_missing_primary no_engine no_join
           [ ("conversions"%string, budget_frame); ("budget"%string, budget_frame) ]
           clicks_config).
  - cbn. lia.
  - cbn. intuition discriminate.
Defined.

Lemma fold_left_fixed :
  forall (A B : Type) (f : A -> B -> A) (a : A) (l : list B),
    (forall b, In b l -> f a b = a) -> fold_left f l a = a.
Proof.
  intros A B f a l. induction l as [ | b l IH ]; intro H.
  - reflexivity.
  - cbn [fold_left]. rewrite (H b (or_introl eq_refl)).
    apply IH. intros b' Hb'. apply H. right. exact Hb'.
Qed.

(** X28. The second strategy returns the primary table as it is when no other table
    shares a join key with it: such a table is skipped, its columns are not
    added, and the join of the data-frame library is not relied on. *)
Theorem join_sources_polars_without_keys :
  forall (left_join : DataFrame -> DataFrame -> list string -> Result DataFrame)
         (sources : list (string * DataFrame)) (config : InsightConfig)
         (primary : DataFrame) (primary_config : SourceConfig),
    lookup (primary_source (dataset config)) sources = Ok primary ->
    lookup (primary_source (dataset config)) (Config.sources (dataset config))
    = Ok primary_config ->
    (forall t, In t sources -> fst t <> primary_source (dataset config) ->
       forall k, In k (join_keys_of config primary_config) ->
         has_column k (snd t) = true -> has_column k primary = false) ->
    join_sources_polars left_join sources config = Ok primary.
Proof.
  intros left_join sources config primary primary_config Hp Hc H.
  unfold join_sources_polars.
  destruct sources as [ | [n d] [ | t rest ] ].
  - discriminate.
  - cbn [lookup] in Hp. destruct (String.eqb _ n); congruence.
  - rewrite Hp, Hc. cbn [bind].
    apply fold_left_fixed. intros s Hs. cbn [bind].
    destruct (String.eqb_spec (fst s) (primary_source (dataset config))) as [ E | NE ];
      [ reflexivity | ].
    cbv zeta.
    assert (Hf : filter (fun k => has_column k (snd s) && has_column k primary)
                   (join_keys_of config primary_config) = []).
    { apply Metrics.filter_nil_iff. intros k Hk.
      destruct (has_column k (snd s)) eqn:Ek; [ | reflexivity ].
      rewrite (H s Hs NE k Hk Ek). reflexivity. }
    rewrite Hf. reflexivity.
Qed.

Lemma join_sources_polars_without_keys_witness :
  join_sources_polars no_join
    [ ("clicks"%string, clicks_frame); ("budget"%string, budget_frame) ] clicks_config
  = Ok clicks_frame.
Proof.
  apply (@join_sources_polars_without_keys no_join
           [ ("clicks"%string, clicks_frame); ("budget"%string, budget_frame) ] clicks_config
           clicks_frame clicks_source).
  - reflexivity.
  - reflexivity.
  - intros t [ <- | [ <- | [] ] ] Hne k Hk Hc.
    + exfalso. apply Hne. reflexivity.
    + cbn in Hk. destruct Hk as [ <- | [ <- | [ <- | [] ] ] ]; cbn in Hc; discriminate.
Defined.

Lemma append_assoc :
  forall a b c : string, ((a ++ b) ++ c)%string = (a ++ b ++ c)%string.
Proof.
  intros a b c. induction a as [ | x a IH ]; simpl; [ reflexivity | rewrite IH; reflexivity ].
Qed.

Lemma append_empty : forall a : string, (a ++ EmptyString)%string = a.
Proof.
  intro a. induction a as [ | x a IH ]; simpl; [ reflexivity | rewrite IH; reflexivity ].
Qed.

Lemma filter_existsb_false :
  forall (A : Type) (f : A -> bool) (l : list A), existsb f l = false -> filter f l = [].
Proof.
  intros A f l. induction l as [ | a l IH ]; simpl; intro H.
  - reflexivity.
  - apply orb_false_iff in H. destruct H as [Ha Hl]. rewrite Ha. apply IH, Hl.
Qed.

Lemma filter_existsb_true :
  forall (A : Type) (f : A -> bool) (l : list A), existsb f l = true -> filter f l <> [].
Proof.
  intros A f l H E. apply existsb_exists in H. destruct H as [a [Hin Hf]].
  assert (Ha : In a (filter f l)) by (apply filter_In; auto).
  rewrite E in Ha. destruct Ha.
Qed.

Lemma concat_all_cons :
  forall (x : string) (l : list string), concat_all (x :: l) = (x ++ concat_all l)%string.
Proof. reflexivity. Qed.

Lemma join_fold_clauses :
  forall (primary_table : string) (join_keys : list string)
         (sources : list (string * DataFrame)) (sql : string),
    fold_left
      (fun sql (t : string * DataFrame) =>
         if String.eqb (fst t) primary_table then sql
         else
           let on_conditions :=
             map (fun key =>
                    (quoted primary_table ++ "." ++ quoted key ++ " = "
                     ++ quoted (fst t) ++ "." ++ quoted key)%string)
                 (filter (fun key => mem key (columns (snd t))) join_keys) in
           match on_conditions with
           | [] => sql
           | _ => (sql ++ " LEFT JOIN " ++ quoted (fst t) ++ " ON "
                   ++ join " AND " on_conditions)%string
           end)
      sources sql
    = (sql ++ concat_all (map (join_clause primary_table join_keys)
                              (filter (is_joined primary_table join_keys) sources)))%string.
Proof.
  intros primary_table join_keys sources.
  induction sources as [ | t sources IH ]; intro sql.
  - cbn. rewrite append_empty. reflexivity.
  - cbn [fold_left filter]. rewrite IH. unfold is_joined at 2.
    destruct (String.eqb (fst t) primary_table) eqn:Eq; cbn [negb andb]; [ reflexivity | ].
    cbv zeta.
    destruct (existsb (fun key => mem key (columns (snd t))) join_keys) eqn:Ee.
    + apply filter_existsb_true in Ee.
      cbn [map]. rewrite concat_all_cons. unfold join_clause at 2. unfold shared_keys.
      destruct (filter (fun key => mem key (columns (snd t))) join_keys) as [ | k ks ];
        [ contradiction | ].
      cbn [map]. rewrite !append_assoc. reflexivity.
    + rewrite (@filter_existsb_false _ _ _ Ee). reflexivity.
Qed.

(** X29. The SQL of the first strategy selects from the primary table and adds one
    [LEFT JOIN] for each other table that has a join key among its columns, in
    the order of the tables, on the join keys that table has; a table with no
    join key among its columns is given no [JOIN].  Its columns are in the
    select list all the same, when the primary table does not have them: the
    query then names a table that it does not join. *)
Theorem join_sql_clauses :
  forall (sources : list (string * DataFrame)) (config : InsightConfig) (sql : string),
    join_sql sources config = Ok sql ->
    exists (primary_config : SourceConfig) (primary_df : DataFrame),
      lookup (primary_source (dataset config)) (Config.sources (dataset config))
      = Ok primary_config /\
      lookup (primary_source (dataset config)) sources = Ok primary_df /\
      sql = ("SELECT "
             ++ join ", " (select_list (primary_source (dataset config)) (columns primary_df)
                             (join_keys_of config primary_config) sources)
             ++ " FROM " ++ quoted (primary_source (dataset config))
             ++ concat_all
                  (map (join_clause (primary_source (dataset config))
                          (join_keys_of config primary_config))
                       (filter (is_joined (primary_source (dataset config))
                                  (join_keys_of config primary_config)) sources)))%string /\
      (forall (t : string * DataFrame) (col : string),
          In t sources ->
          fst t <> primary_source (dataset config) ->
          is_joined (primary_source (dataset config)) (join_keys_of config primary_config) t
          = false ->
          In col (columns (snd t)) ->
          ~ In col (columns primary_df) ->
          In (qualified (fst t) col)
             (select_list (primary_source (dataset config)) (columns primary_df)
                (join_keys_of config primary_config) sources)).
Proof.
  intros sources config sql H. unfold join_sql in H.
  destruct (lookup (primary_source (dataset config)) (Config.sources (dataset config)))
    as [ primary_config | e ] eqn:Ec; [ | discriminate ].
  cbn [bind] in H.
  destruct (lookup (primary_source (dataset config)) sources) as [ primary_df | e ] eqn:Ep;
    [ | discriminate ].
  cbn [bind] in H. cbv zeta in H. rewrite join_fold_clauses in H.
  injection H as <-.
  exists primary_config, primary_df. split; [ reflexivity | ]. split; [ reflexivity | ].
  split.
  - unfold select_list, qualified. rewrite !append_assoc. reflexivity.
  - intros t col Hin Hne Hj Hc Hp. unfold select_list. apply in_or_app. right.
    apply in_flat_map. exists t. split; [ exact Hin | ].
    destruct (String.eqb_spec (fst t) (primary_source (dataset config))) as [ E | _ ];
      [ contradiction | ].
    apply in_map. apply filter_In. split; [ exact Hc | ].
    unfold is_joined in Hj. apply String.eqb_neq in Hne. rewrite Hne in Hj.
    cbn [negb andb] in Hj.
    destruct (mem col (columns primary_df)) eqn:Em1.
    { apply mem_In in Em1. contradiction. }
    destruct (mem col (join_keys_of config primary_config)) eqn:Em2; [ | reflexivity ].
    apply mem_In in Em2.
    assert (Hx : existsb (fun key => mem key (columns (snd t)))
                   (join_keys_of config primary_config) = true).
    { apply existsb_exists. exists col. split; [ exact Em2 | apply mem_In, Hc ]. }
    congruence.
Qed.

Lemma join_sql_clauses_witness :
  exists sql : string,
    join_sql [ ("clicks"%string, clicks_frame); ("budget"%string, budget_frame) ] clicks_config
    = Ok sql /\
    In (qualified "budget" "channel")
       (select_list "clicks" (columns clicks_frame) [ "campaign"; "geo"; "date" ]%string
          [ ("clicks"%string, clicks_frame); ("budget"%string, budget_frame) ]) /\
    filter (is_joined "clicks" [ "campaign"; "geo"; "date" ]%string)
      [ ("clicks"%string, clicks_frame); ("budget"%string, budget_frame) ] = [].
Proof.
  destruct (join_sql [ ("clicks"%string, clicks_frame); ("budget"%string, budget_frame) ]
              clicks_config) as [ sql | e ] eqn:E.
  - exists sql. split; [ reflexivity | ].
    destruct (@join_sql_clauses _ _ _ E) as [pc [pd [Hc [Hp [_ Hs]]]]].
    cbn in Hc, Hp. injection Hc as <-. injection Hp as <-.
    split; [ | reflexivity ].
    apply (Hs ("budget"%string, budget_frame) "channel"%string).
    + right. left. reflexivity.
    + discriminate.
    + reflexivity.
    + left. reflexivity.
    + cbn. intuition discriminate.
  - vm_compute in E. discriminate.
Defined.

(** ** The columns of a generated query *)

(** X30. The generated query selects the declared dimensions first and then the
    declared metrics, each list as it is declared; after them come the date
    column and the join keys that are not selected yet, each once. *)
Theorem select_columns_order :
  forall source_config : SourceConfig,
    exists extra : list string,
      select_columns source_config
      = dimensions source_config ++ metrics source_config ++ extra /\
      NoDup extra /\
      forall c : string,
        In c extra ->
        ~ In c (dimensions source_config ++ metrics source_config) /\
        ((c = date_col source_config /\ c <> EmptyString) \/ In c (keys_of source_config)).
Proof.
  intro cfg. rewrite select_columns_unfold.
  destruct (Derivation.append_new_fold_prefix (keys_of cfg) (declared_columns cfg))
    as [extra [He [Hnd Hin]]].
  rewrite He. unfold declared_columns in *.
  destruct (String.eqb_spec (date_col cfg) EmptyString) as [ E | NE ]; cbn [negb andb] in *.
  - exists extra. rewrite <- app_assoc. split; [ reflexivity | ]. split; [ exact Hnd | ].
    intros c Hc. destruct (Hin c Hc) as [H1 H2]. split; [ exact H2 | right; exact H1 ].
  - destruct (mem (date_col cfg) (dimensions cfg ++ metrics cfg)) eqn:Em; cbn [negb] in *.
    + exists extra. rewrite <- app_assoc. split; [ reflexivity | ]. split; [ exact Hnd | ].
      intros c Hc. destruct (Hin c Hc) as [H1 H2]. split; [ exact H2 | right; exact H1 ].
    + exists (date_col cfg :: extra). rewrite <- !app_assoc. split; [ reflexivity | ].
      split.
      * constructor; [ | exact Hnd ]. intro Hc. destruct (Hin _ Hc) as [_ H2].
        apply H2. apply in_or_app. right. left. reflexivity.
      * intros c [ <- | Hc ].
        -- split; [ | left; split; [ reflexivity | exact NE ] ].
           intro Hd. apply mem_In in Hd. congruence.
        -- destruct (Hin c Hc) as [H1 H2]. split; [ | right; exact H1 ].
           intro Hd. apply H2. apply in_or_app. left. exact Hd.
Qed.

End Loading.
